(** * Goal lifecycle and reservation ledger of billax-backend

    A shallow embedding of [app/models/goal.py],
    [app/repositories/base_repository.py],
    [app/repositories/goal_repository.py],
    [app/repositories/account_repository.py] and
    [app/facade/goal_facade.py], followed by the properties of the goal
    engine stated over it.

    Modelling conventions.
    - Money is a Python [float] in the computations of the source and a
      [Numeric(10, 2)] or [Numeric(15, 2)] column in its tables.  A
      number is modelled by the rational it denotes.  The rounding of
      each [float(...)] and of each floating-point operation, and the
      rounding of a number committed to a numeric column, are the
      functions [fl] and [numeric] of the class [Numerics]; [Plain]
      implements them as IEEE 754 binary64, round to nearest even, and
      as rounding to two decimals.  The floats of [Plain] have an
      exponent of any size: there is no overflow to infinity, no NaN and
      no underflow; and a column holds a number of any size.
    - Dates are day ordinals ([Z]), timestamps are [Z].
    - A payload ([**kwargs]) is a finite map from field names to Python
      values.
    - The two tables read and written by the facade are finite maps from
      the primary key to the row; the key plays the role of the [id]
      column.  A commit of a well-typed row always succeeds: storage
      failures (foreign keys, column widths) are outside the model.
    - Every facade operation is a computation in a state and exception
      monad over the database, which also records, as ghost output, each
      entry into [_validate_linked_amount_total]. *)

From Stdlib Require Import Ascii String QArith Qminmax Qround Qabs Qpower Lqa Lia.
From stdpp Require Import gmap strings list sorting.

Local Open Scope Z_scope.

(** ** Python values *)

Inductive pyval : Type :=
| PNone
| PInt (z : Z)
| PFloat (q : Q)
| PStr (s : string)
| PDate (d : Z).

(** [bool(v)]. *)
Definition truthy (v : pyval) : bool :=
  match v with
  | PNone => false
  | PInt z => negb (z =? 0)
  | PFloat q => negb (Qeq_bool q 0)
  | PStr s => negb (String.eqb s "")
  | PDate _ => true
  end.

(** The number a numeric value denotes. *)
Definition float_of_num (v : pyval) : option Q :=
  match v with
  | PInt z => Some (inject_Z z)
  | PFloat q => Some q
  | _ => None
  end.

(** [int(q)] on a float: truncation towards zero. *)
Definition trunc (q : Q) : Z := Z.quot (Qnum q) (Z.pos (Qden q)).

(** [x or 0] on a nullable numeric column. *)
Definition or_zero (x : option Q) : Q :=
  match x with
  | Some q => if Qeq_bool q 0 then 0%Q else q
  | None => 0%Q
  end.

(** [min(a, b)] of Python: the first argument unless the second is
    strictly smaller. *)
Definition py_min (a b : Q) : Q := if Qle_bool a b then a else b.

(** [a > b]. *)
Definition Qgtb (a b : Q) : bool := negb (Qle_bool a b).

(** Numbers as the interpreter and the database round them.  [fl x] is
    the [float] nearest to [x]: [float(d)] of a [Decimal] or an [int]
    whose value is [x], and the result of a floating-point operation
    whose exact result is [x].  [numeric x] is the number a
    [Numeric(10, 2)] column gives back after [x] was committed to it.
    Neither is code of the repository; the model is over an arbitrary
    implementation of them. *)
Class Numerics : Type := {
  fl : Q -> Q;
  numeric : Q -> Q
}.

(** What the properties of the goal engine use of the two roundings:
    both are monotone; a float is its own rounding, and so are 0, 1 and
    100; a positive number is not rounded to 0; and a number held by a
    column, converted to a float and committed again, is held
    unchanged. *)
Class Lawful (N : Numerics) : Prop := {
  fl_le : forall x y, (x <= y)%Q -> (fl x <= fl y)%Q;
  fl_fl : forall x, (fl (fl x) == fl x)%Q;
  fl_0 : (fl 0 == 0)%Q;
  fl_1 : (fl 1 == 1)%Q;
  fl_100 : (fl 100 == 100)%Q;
  fl_pos : forall x, (0 < x)%Q -> (0 < fl x)%Q;
  numeric_le : forall x y, (x <= y)%Q -> (numeric x <= numeric y)%Q;
  numeric_0 : (numeric 0 == 0)%Q;
  numeric_fl : forall x, (numeric (fl (numeric (fl x))) == numeric (fl x))%Q
}.

(** Built-in functions of the Python runtime used by the facade on
    strings.  They are not code of the repository; the facade is
    modelled over an arbitrary implementation of them. *)
Record Builtins : Type := {
  str_strip : string -> string;            (* s.strip() *)
  int_of_str : string -> option Z;         (* int(s), None on ValueError *)
  float_of_str : string -> option Q;       (* float(s), None on ValueError *)
  strptime_ymd : string -> option Z        (* strptime(s, '%Y-%m-%d').date() *)
}.

(** ** Exceptions ([app/utils/goal_exceptions.py]) *)

(** The text carried by an exception, kept structured where the source
    formats values into it. *)
Inductive message : Type :=
| Msg (text : string)
| MsgReserve (available_balance total_reserved : Q)
| MsgGoalId (goal_id : Z)
| MsgField (field : string)
| MsgPrefixed (prefix : string) (inner : message)
| MsgBuiltin.

Inductive exn : Type :=
| GoalValidationError (m : message)
| GoalNotFoundError (m : message)
| TypeError
| AttributeError.

(** [str(e)]. *)
Definition str_of_exn (e : exn) : message :=
  match e with
  | GoalValidationError m => m
  | GoalNotFoundError m => m
  | TypeError => MsgBuiltin
  | AttributeError => MsgBuiltin
  end.

Definition is_not_found_error (e : exn) : bool :=
  match e with GoalNotFoundError _ => true | _ => false end.

(** ** Rows ([app/models/goal.py], [app/models/account.py]) *)

Record Goal : Type := mkGoal {
  user_id : Z;
  title : pyval;
  description : pyval;
  target_amount : Q;
  current_amount : option Q;
  deadline : option Z;
  category : pyval;
  status : string;
  created_at : Z;
  updated_at : Z;
  linked_account_id : option Z;
  linked_amount : option Q
}.

Record Account : Type := mkAccount {
  acc_user_id : Z;
  available_balance : option Q;
  is_active : bool
}.

(** The persisted state, with the clock readings [datetime.utcnow()] and
    [date.today()] the operations take. *)
Record DB : Type := mkDB {
  users : gset Z;
  accounts : gmap Z Account;
  goals : gmap Z Goal;
  next_goal_id : Z;
  utcnow : Z;
  today : Z
}.

Definition set_goals (t : gmap Z Goal) (db : DB) : DB :=
  {| users := users db; accounts := accounts db; goals := t;
     next_goal_id := next_goal_id db; utcnow := utcnow db; today := today db |}.

(** A goal object: its primary key and its row. *)
Abbreviation goal_obj := (Z * Goal)%type.

(** ** The Goal model *)

Module GoalModel.

(** [Goal.__init__] at the moment the row is inserted ([created_at] and
    [updated_at] take their column default). *)
Definition init (now : Z) (user_id0 : Z) (title0 : pyval) (target : Q)
    (description0 : pyval) (deadline0 : option Z) (category0 : pyval)
    (linked_account_id0 : option Z) (linked_amount0 : option Q) : Goal :=
  {| user_id := user_id0; title := title0; description := description0;
     target_amount := target; current_amount := Some 0%Q;
     deadline := deadline0; category := category0; status := "active";
     created_at := now; updated_at := now;
     linked_account_id := linked_account_id0;
     linked_amount := linked_amount0 |}.

(** The sum [calculate_progress] divides: [float(current_amount or 0)],
    plus [float(linked_amount)] when [linked_amount] is truthy. *)
Definition total_progress `{Numerics} (g : Goal) : Q :=
  let total := fl (or_zero (current_amount g)) in
  match linked_amount g with
  | Some l => if Qeq_bool l 0 then total else fl (total + fl l)
  | None => total
  end.

Definition calculate_progress `{Numerics} (g : Goal) : Q :=
  if Qeq_bool (target_amount g) 0 then 0%Q
  else py_min (fl (fl (total_progress g / fl (target_amount g)) * 100)) 100%Q.

Definition calculate_days_remaining (today0 : Z) (g : Goal) : option Z :=
  match deadline g with
  | None => None
  | Some d => Some (d - today0)
  end.

(** Assignment to one attribute. *)
Definition with_title (x : pyval) (g : Goal) : Goal :=
  {| user_id := user_id g; title := x; description := description g;
     target_amount := target_amount g; current_amount := current_amount g;
     deadline := deadline g; category := category g; status := status g;
     created_at := created_at g; updated_at := updated_at g;
     linked_account_id := linked_account_id g; linked_amount :=
     linked_amount g |}.

Definition with_description (x : pyval) (g : Goal) : Goal :=
  {| user_id := user_id g; title := title g; description := x;
     target_amount := target_amount g; current_amount := current_amount g;
     deadline := deadline g; category := category g; status := status g;
     created_at := created_at g; updated_at := updated_at g;
     linked_account_id := linked_account_id g; linked_amount :=
     linked_amount g |}.

Definition with_target_amount (x : Q) (g : Goal) : Goal :=
  {| user_id := user_id g; title := title g; description := description g;
     target_amount := x; current_amount := current_amount g; deadline :=
     deadline g; category := category g; status := status g; created_at :=
     created_at g; updated_at := updated_at g; linked_account_id :=
     linked_account_id g; linked_amount := linked_amount g |}.

Definition with_current_amount (x : option Q) (g : Goal) : Goal :=
  {| user_id := user_id g; title := title g; description := description g;
     target_amount := target_amount g; current_amount := x; deadline :=
     deadline g; category := category g; status := status g; created_at :=
     created_at g; updated_at := updated_at g; linked_account_id :=
     linked_account_id g; linked_amount := linked_amount g |}.

Definition with_deadline (x : option Z) (g : Goal) : Goal :=
  {| user_id := user_id g; title := title g; description := description g;
     target_amount := target_amount g; current_amount := current_amount g;
     deadline := x; category := category g; status := status g; created_at
     := created_at g; updated_at := updated_at g; linked_account_id :=
     linked_account_id g; linked_amount := linked_amount g |}.

Definition with_category (x : pyval) (g : Goal) : Goal :=
  {| user_id := user_id g; title := title g; description := description g;
     target_amount := target_amount g; current_amount := current_amount g;
     deadline := deadline g; category := x; status := status g; created_at
     := created_at g; updated_at := updated_at g; linked_account_id :=
     linked_account_id g; linked_amount := linked_amount g |}.

Definition with_status (x : string) (g : Goal) : Goal :=
  {| user_id := user_id g; title := title g; description := description g;
     target_amount := target_amount g; current_amount := current_amount g;
     deadline := deadline g; category := category g; status := x;
     created_at := created_at g; updated_at := updated_at g;
     linked_account_id := linked_account_id g; linked_amount :=
     linked_amount g |}.

Definition with_updated_at (x : Z) (g : Goal) : Goal :=
  {| user_id := user_id g; title := title g; description := description g;
     target_amount := target_amount g; current_amount := current_amount g;
     deadline := deadline g; category := category g; status := status g;
     created_at := created_at g; updated_at := x; linked_account_id :=
     linked_account_id g; linked_amount := linked_amount g |}.

Definition with_linked_account_id (x : option Z) (g : Goal) : Goal :=
  {| user_id := user_id g; title := title g; description := description g;
     target_amount := target_amount g; current_amount := current_amount g;
     deadline := deadline g; category := category g; status := status g;
     created_at := created_at g; updated_at := updated_at g;
     linked_account_id := x; linked_amount := linked_amount g |}.

Definition with_linked_amount (x : option Q) (g : Goal) : Goal :=
  {| user_id := user_id g; title := title g; description := description g;
     target_amount := target_amount g; current_amount := current_amount g;
     deadline := deadline g; category := category g; status := status g;
     created_at := created_at g; updated_at := updated_at g;
     linked_account_id := linked_account_id g; linked_amount := x |}.

(** [Goal.update_progress], on the object in memory. *)
Definition update_progress `{Numerics} (now : Z) (amount : Q) (progress_type : string)
    (g : Goal) : Goal :=
  let g1 :=
    if String.eqb progress_type "linked"
    then with_linked_amount
           (Some (fl (fl (or_zero (linked_amount g)) + fl amount))) g
    else with_current_amount
           (Some (fl (fl (or_zero (current_amount g)) + fl amount))) g in
  let g2 :=
    if Qle_bool 100 (calculate_progress g1)
    then with_status "completed" g1 else g1 in
  with_updated_at now g2.

Definition is_overdue (today0 : Z) (g : Goal) : bool :=
  match deadline g with
  | None => false
  | Some d => (d <? today0) && String.eqb (status g) "active"
  end.

End GoalModel.

(** ** The monad of the operations *)

(** One entry into [GoalFacade._validate_linked_amount_total], with its
    arguments. *)
Inductive call : Type :=
| LedgerCheck (user account : Z) (amount : Q) (exclude_goal_id : option Z).

Inductive result (A : Type) : Type :=
| Ok (a : A)
| Raise (e : exn).
Arguments Ok {A} a.
Arguments Raise {A} e.

(** A computation reads and writes the database, returns or raises, and
    emits the ledger checks it entered. *)
Definition M (A : Type) : Type := DB -> result A * DB * list call.

Definition ret {A} (a : A) : M A := fun db => (Ok a, db, []).

Definition bind {A B} (m : M A) (k : A -> M B) : M B :=
  fun db =>
    match m db with
    | (Ok a, db1, l1) =>
        match k a db1 with
        | (r, db2, l2) => (r, db2, l1 ++ l2)
        end
    | (Raise e, db1, l1) => (Raise e, db1, l1)
    end.

Definition raise {A} (e : exn) : M A := fun db => (Raise e, db, []).
Definition get_db : M DB := fun db => (Ok db, db, []).
Definition tell (c : call) : M unit := fun db => (Ok tt, db, [c]).

(** [try: m  except Exception as e: h e]. *)
Definition try_except {A} (m : M A) (h : exn -> M A) : M A :=
  fun db =>
    match m db with
    | (Raise e, db1, l1) =>
        match h e db1 with
        | (r, db2, l2) => (r, db2, l1 ++ l2)
        end
    | (Ok a, db1, l1) => (Ok a, db1, l1)
    end.

Notation "'do' x <- m ; k" := (bind m (fun x => k))
  (at level 10, x name, m at level 100, k at level 200, only parsing).

(** [if c: raise e]. *)
Definition raise_if (c : bool) (e : exn) : M unit :=
  if c then raise e else ret tt.

Definition outcome {A} (x : result A * DB * list call) : result A := x.1.1.
Definition final_db {A} (x : result A * DB * list call) : DB := x.1.2.
Definition checks {A} (x : result A * DB * list call) : list call := x.2.

(** ** Repositories *)

Module Repo.

(** [UserRepository.get_by_id(user_id)] is truthy. *)
Definition user_exists (uid : Z) (db : DB) : bool := bool_decide (uid ∈ users db).

(** [AccountRepository.get_by_id_and_user_id]. *)
Definition get_by_id_and_user_id (account_id uid : Z) (db : DB) : option Account :=
  match accounts db !! account_id with
  | Some a => if (acc_user_id a =? uid) && is_active a then Some a else None
  | None => None
  end.

(** [find_one_by(id=goal_id, user_id=user_id)], that is
    [GoalRepository.get_goal_by_id]. *)
Definition get_goal_by_id (goal_id uid : Z) (db : DB) : option goal_obj :=
  match goals db !! goal_id with
  | Some g => if user_id g =? uid then Some (goal_id, g) else None
  | None => None
  end.

(** [find_by(user_id=user_id, linked_account_id=linked_account_id)]. *)
Definition find_by_user_account (uid account_id : Z) (db : DB) : list goal_obj :=
  filter (fun o : goal_obj =>
            user_id o.2 = uid /\ linked_account_id o.2 = Some account_id)
         (map_to_list (goals db)).

(** [db.session.commit()] on a [Numeric(10, 2)] column that was
    assigned: the row holds, and the object reloads, what the column
    keeps of the number. *)
Definition rounded_target `{Numerics} (g : Goal) : Goal :=
  GoalModel.with_target_amount (numeric (target_amount g)) g.
Definition rounded_current `{Numerics} (g : Goal) : Goal :=
  GoalModel.with_current_amount (option_map numeric (current_amount g)) g.
Definition rounded_linked `{Numerics} (g : Goal) : Goal :=
  GoalModel.with_linked_amount (option_map numeric (linked_amount g)) g.

(** [BaseRepository.create] on the Goal model: the row gets the next
    primary key and is committed; [target_amount] and [linked_amount]
    are rounded by their columns ([current_amount] is the integer 0). *)
Definition create `{Numerics} (mk : Z -> Goal) : M goal_obj :=
  fun db =>
    let g := rounded_linked (rounded_target (mk (utcnow db))) in
    let i := next_goal_id db in
    (Ok (i, g),
     {| users := users db; accounts := accounts db;
        goals := <[i := g]> (goals db);
        next_goal_id := i + 1; utcnow := utcnow db; today := today db |},
     []).

(** [GoalRepository.create_goal]. *)
Definition create_goal `{Numerics} (mk : Z -> Goal) : M goal_obj :=
  try_except (create mk)
    (fun e => raise (GoalValidationError
                       (MsgPrefixed "Error creating goal: " (str_of_exn e)))).

(** [setattr(entity, key, value)] on a column of the Goal model a payload
    of the facade can name; [None] when the column type cannot hold the
    value (the commit then fails). *)
Definition setattr (key : string) (v : pyval) (g : Goal) : option Goal :=
  if String.eqb key "title" then Some (GoalModel.with_title v g)
  else if String.eqb key "description" then Some (GoalModel.with_description v g)
  else if String.eqb key "target_amount" then
    match float_of_num v with
    | Some q => Some (GoalModel.with_target_amount q g)
    | None => None
    end
  else if String.eqb key "deadline" then
    match v with
    | PDate d => Some (GoalModel.with_deadline (Some d) g)
    | PNone => Some (GoalModel.with_deadline None g)
    | _ => None
    end
  else if String.eqb key "category" then Some (GoalModel.with_category v g)
  else if String.eqb key "status" then
    match v with
    | PStr s => Some (GoalModel.with_status s g)
    | _ => None
    end
  else if String.eqb key "linked_account_id" then
    match v with
    | PInt a => Some (GoalModel.with_linked_account_id (Some a) g)
    | PNone => Some (GoalModel.with_linked_account_id None g)
    | _ => None
    end
  else if String.eqb key "linked_amount" then
    match v with
    | PNone => Some (GoalModel.with_linked_amount None g)
    | _ => match float_of_num v with
           | Some q => Some (GoalModel.with_linked_amount (Some q) g)
           | None => None
           end
    end
  else Some g.

(** [for key, value in updates.items(): setattr(entity, key, value)].
    The facade lets through the keys of [VALID_FIELDS] only, all of them
    columns; they are assigned in this fixed order, which does not
    matter since they are distinct attributes. *)
Definition columns : list string :=
  ["title"; "description"; "target_amount"; "deadline"; "category"; "status";
   "linked_account_id"; "linked_amount"].

Fixpoint set_columns (keys : list string) (updates : gmap string pyval)
    (g : Goal) : option Goal :=
  match keys with
  | [] => Some g
  | key :: rest =>
      match updates !! key with
      | Some v =>
          match setattr key v g with
          | Some g' => set_columns rest updates g'
          | None => None
          end
      | None => set_columns rest updates g
      end
  end.

Definition store (i : Z) (g : Goal) : M unit :=
  fun db => (Ok tt, set_goals (<[i := g]> (goals db)) db, []).

(** The commit of [BaseRepository.update]: the numeric columns among the
    assigned ones are rounded. *)
Definition rounded_columns `{Numerics} (updates : gmap string pyval) (g : Goal) : Goal :=
  let g1 := if bool_decide (is_Some (updates !! "target_amount"))
            then rounded_target g else g in
  if bool_decide (is_Some (updates !! "linked_amount"))
  then rounded_linked g1 else g1.

(** [BaseRepository.update]: assign, refresh [updated_at], commit; on an
    exception roll back (nothing is written) and re-raise.  [TypeError]
    stands for the exception of a commit that fails on an ill-typed
    value. *)
Definition update `{Numerics} (o : goal_obj) (updates : gmap string pyval) : M goal_obj :=
  do db <- get_db;
  match set_columns columns updates o.2 with
  | Some g1 =>
      let g2 := rounded_columns updates (GoalModel.with_updated_at (utcnow db) g1) in
      do _ <- store o.1 g2; ret (o.1, g2)
  | None => raise TypeError
  end.

(** [GoalRepository.update_goal]. *)
Definition update_goal `{Numerics} (goal_id uid : Z) (updates : gmap string pyval)
    : M goal_obj :=
  do db <- get_db;
  match get_goal_by_id goal_id uid db with
  | None => raise (GoalNotFoundError (MsgGoalId goal_id))
  | Some o =>
      try_except (update o updates)
        (fun e => raise (GoalValidationError
                           (MsgPrefixed "Error updating goal: " (str_of_exn e))))
  end.

(** [BaseRepository.delete]. *)
Definition delete (o : goal_obj) : M bool :=
  fun db => (Ok true, set_goals (base.delete o.1 (goals db)) db, []).

(** [GoalRepository.delete_goal]. *)
Definition delete_goal (goal_id uid : Z) : M bool :=
  do db <- get_db;
  match get_goal_by_id goal_id uid db with
  | None => raise (GoalNotFoundError (MsgGoalId goal_id))
  | Some o =>
      try_except (delete o)
        (fun e => raise (GoalValidationError
                           (MsgPrefixed "Error deleting goal: " (str_of_exn e))))
  end.

(** The commit of [update_goal_progress]: the amount that
    [Goal.update_progress] assigned is rounded by its column. *)
Definition rounded_progress `{Numerics} (progress_type : string) (g : Goal) : Goal :=
  if String.eqb progress_type "linked" then rounded_linked g else rounded_current g.

(** [GoalRepository.update_goal_progress]. *)
Definition update_goal_progress `{Numerics} (goal_id uid : Z) (amount : Q)
    (progress_type : string) : M goal_obj :=
  do db <- get_db;
  match get_goal_by_id goal_id uid db with
  | None => raise (GoalNotFoundError (MsgGoalId goal_id))
  | Some o =>
      try_except
        (let g' := rounded_progress progress_type
                     (GoalModel.update_progress (utcnow db) amount progress_type o.2) in
         do _ <- store o.1 g'; ret (o.1, g'))
        (fun e => raise (GoalValidationError
                           (MsgPrefixed "Error updating goal progress: "
                                        (str_of_exn e))))
  end.

(** Ascending order of the [deadline] column (a NULL sorts first). *)
Definition deadline_le (x y : goal_obj) : Prop :=
  match deadline x.2, deadline y.2 with
  | None, _ => True
  | Some _, None => False
  | Some a, Some b => a <= b
  end.

#[global] Instance deadline_le_dec x y : Decision (deadline_le x y).
Proof. unfold deadline_le. destruct (deadline x.2), (deadline y.2); apply _. Defined.

(** The WHERE clause of [get_goals_near_deadline] on one row (a NULL
    deadline satisfies no comparison). *)
Definition near_deadline_row (uid today0 future_date : Z) (g : Goal) : bool :=
  (user_id g =? uid) && String.eqb (status g) "active" &&
  match deadline g with
  | Some d => (today0 <=? d) && (d <=? future_date)
  | None => false
  end.

(** [GoalRepository.get_goals_near_deadline]. *)
Definition get_goals_near_deadline (uid days : Z) (db : DB) : list goal_obj :=
  let today0 := today db in
  let future_date := today0 + days in
  merge_sort deadline_le
    (filter (fun o : goal_obj => near_deadline_row uid today0 future_date o.2 = true)
            (map_to_list (goals db))).

End Repo.

(** ** The dictionary returned to the caller ([Goal.to_dict])

    The stored columns are kept as the row itself; the two computed
    entries are added.  The nested dictionary of the linked account is
    left out. *)

Record GoalDict : Type := mkGoalDict {
  d_id : Z;
  d_goal : Goal;                     (* the stored columns, as they are *)
  progress_percentage : Q;
  days_remaining : option Z
}.

Definition to_dict `{Numerics} (today0 : Z) (o : goal_obj) : GoalDict :=
  {| d_id := o.1; d_goal := o.2;
     progress_percentage := GoalModel.calculate_progress o.2;
     days_remaining := GoalModel.calculate_days_remaining today0 o.2 |}.

(** ** The facade ([app/facade/goal_facade.py]) *)

Module Facade.
Section WithBuiltins.

Variable B : Builtins.
Context {N : Numerics}.

Definition VALID_CATEGORIES : list string :=
  ["savings"; "investment"; "debt"; "emergency"; "vacation"; "education";
   "bills"; "other"].
Definition VALID_STATUSES : list string := ["active"; "completed"; "cancelled"].
Definition VALID_FIELDS : list string :=
  ["title"; "description"; "target_amount"; "deadline"; "category"; "status";
   "linked_account_id"; "linked_amount"].

(** [kwargs.get(key)] and [kwargs.get(key, '')]. *)
Definition get (key : string) (kwargs : gmap string pyval) : pyval :=
  default PNone (kwargs !! key).
Definition get_or_empty (key : string) (kwargs : gmap string pyval) : pyval :=
  default (PStr "") (kwargs !! key).

(** [v.strip()]: only a string has the method. *)
Definition strip (v : pyval) : M string :=
  match v with
  | PStr s => ret (str_strip B s)
  | _ => raise AttributeError
  end.

(** [v <= 0]; [None] when Python raises [TypeError]. *)
Definition le_zero (v : pyval) : option bool :=
  match v with
  | PInt z => Some (z <=? 0)
  | PFloat q => Some (Qle_bool q 0)
  | _ => None
  end.

(** [v in names], for a list of strings. *)
Definition in_list (v : pyval) (names : list string) : bool :=
  match v with
  | PStr s => bool_decide (s ∈ names)
  | _ => false
  end.

(** [int(v)] and [float(v)]; [None] on [ValueError] or [TypeError]. *)
Definition to_int (v : pyval) : option Z :=
  match v with
  | PInt z => Some z
  | PFloat q => Some (trunc q)
  | PStr s => int_of_str B s
  | _ => None
  end.
Definition to_float (v : pyval) : option Q :=
  match v with
  | PInt z => Some (fl (inject_Z z))
  | PFloat q => Some q
  | PStr s => float_of_str B s
  | _ => None
  end.

(** [v is not None and v != '']. *)
Definition is_given (v : pyval) : bool :=
  match v with
  | PNone => false
  | PStr s => negb (String.eqb s "")
  | _ => true
  end.

(** The goals the ledger sums: those of the user on the account, but
    the excluded one. *)
Definition reserved_goals (uid account_id : Z) (exclude_goal_id : option Z)
    (db : DB) : list goal_obj :=
  filter (fun o : goal_obj =>
            match exclude_goal_id with
            | None => true
            | Some e => negb (o.1 =? e)
            end = true)
         (Repo.find_by_user_account uid account_id db).

(** [sum(float(g.linked_amount or 0) for g in goals if ...)]: the
    floats are added one after the other, from 0. *)
Definition total_reserved (uid account_id : Z) (exclude_goal_id : option Z)
    (db : DB) : Q :=
  foldl (fun total x => fl (total + x)) 0%Q
    (map (fun o : goal_obj => fl (or_zero (linked_amount o.2)))
         (reserved_goals uid account_id exclude_goal_id db)).

Definition _validate_linked_amount_total (uid account_id : Z) (amount : Q)
    (exclude_goal_id : option Z) : M unit :=
  do _ <- tell (LedgerCheck uid account_id amount exclude_goal_id);
  do db <- get_db;
  match Repo.get_by_id_and_user_id account_id uid db with
  | None =>
      raise (GoalValidationError
               (Msg "Linked account not found or does not belong to user"))
  | Some account =>
      let reserved := total_reserved uid account_id exclude_goal_id db in
      let available := fl (or_zero (available_balance account)) in
      let total_needed := fl (fl reserved + fl amount) in
      raise_if (Qgtb total_needed available)
               (GoalValidationError (MsgReserve available reserved))
  end.

Definition _validate_user_exists (uid : Z) : M unit :=
  do db <- get_db;
  raise_if (negb (Repo.user_exists uid db))
           (GoalValidationError (Msg "User not found")).

Definition _validate_and_parse_deadline (deadline0 : pyval) : M (option Z) :=
  if negb (truthy deadline0) then ret None
  else
    match deadline0 with
    | PStr s =>
        match strptime_ymd B s with
        | Some d =>
            do db <- get_db;
            if d <? today db
            then raise (GoalValidationError (Msg "Deadline cannot be in the past"))
            else ret (Some d)
        | None =>
            raise (GoalValidationError
                     (Msg "Invalid deadline format. Use YYYY-MM-DD"))
        end
    | _ => raise TypeError
    end.

Definition _validate_and_convert_linked_fields (linked_account_id0 linked_amount0 : pyval)
    : M (option Z * option Q) :=
  do a <- (if is_given linked_account_id0 then
             match to_int linked_account_id0 with
             | Some z => ret (Some z)
             | None => raise (GoalValidationError
                                (Msg "linked_account_id must be an integer"))
             end
           else ret None);
  do m <- (if is_given linked_amount0 then
             match to_float linked_amount0 with
             | Some q => ret (Some q)
             | None => raise (GoalValidationError
                                (Msg "linked_amount must be a number"))
             end
           else ret None);
  ret (a, m).

(** [if linked_account_id and linked_amount is not None:] the ledger
    check, else nothing. *)
Definition check_linked (uid : Z) (a : option Z) (m : option Q)
    (exclude_goal_id : option Z) : M unit :=
  match a, m with
  | Some account_id, Some amount =>
      if negb (account_id =? 0)
      then _validate_linked_amount_total uid account_id amount exclude_goal_id
      else ret tt
  | _, _ => ret tt
  end.

Definition invalid_category : exn :=
  GoalValidationError
    (Msg "Invalid category. Must be one of: savings, investment, debt, emergency, vacation, education, bills, other").
Definition invalid_status : exn :=
  GoalValidationError
    (Msg "Invalid status. Must be one of: active, completed, cancelled").

Definition create_goal (uid : Z) (kwargs : gmap string pyval) : M GoalDict :=
  do _ <- _validate_user_exists uid;
  do title0 <- strip (get_or_empty "title" kwargs);
  do _ <- raise_if (String.eqb title0 "")
                   (GoalValidationError (Msg "Title is required"));
  let target := get "target_amount" kwargs in
  do target_q <-
    (if negb (truthy target)
     then raise (GoalValidationError (Msg "Target amount must be greater than 0"))
     else match le_zero target, float_of_num target with
          | Some false, Some q => ret q
          | Some true, _ =>
              raise (GoalValidationError
                       (Msg "Target amount must be greater than 0"))
          | _, _ => raise TypeError
          end);
  do deadline_date <- _validate_and_parse_deadline (get "deadline" kwargs);
  let category0 := get "category" kwargs in
  do _ <- raise_if (truthy category0 && negb (in_list category0 VALID_CATEGORIES))
                   invalid_category;
  do la <- _validate_and_convert_linked_fields
             (get "linked_account_id" kwargs) (get "linked_amount" kwargs);
  do _ <- check_linked uid la.1 la.2 None;
  do description0 <- strip (get_or_empty "description" kwargs);
  let description1 :=
    if String.eqb description0 "" then PNone else PStr description0 in
  try_except
    (do goal <- Repo.create_goal
                  (fun now => GoalModel.init now uid (PStr title0) target_q
                                description1 deadline_date category0 la.1 la.2);
     do db <- get_db;
     ret (to_dict (today db) goal))
    (fun e => raise (GoalValidationError
                       (MsgPrefixed "Error creating goal: " (str_of_exn e)))).

Definition get_goal_by_id (goal_id uid : Z) : M GoalDict :=
  do _ <- _validate_user_exists uid;
  do db <- get_db;
  match Repo.get_goal_by_id goal_id uid db with
  | None => raise (GoalNotFoundError (MsgGoalId goal_id))
  | Some goal => ret (to_dict (today db) goal)
  end.

Definition pyval_of_date (d : option Z) : pyval :=
  match d with Some x => PDate x | None => PNone end.
Definition pyval_of_int (a : option Z) : pyval :=
  match a with Some x => PInt x | None => PNone end.
Definition pyval_of_float (m : option Q) : pyval :=
  match m with Some x => PFloat x | None => PNone end.

(** [for field in updates: if field not in VALID_FIELDS: raise].  The
    field named in the message is the first offending key in the order
    the map lists its keys, where Python follows insertion order. *)
Definition validate_fields (updates : gmap string pyval) : M unit :=
  match filter (fun k => k ∉ VALID_FIELDS) (map_to_list updates).*1 with
  | field :: _ => raise (GoalValidationError (MsgField field))
  | [] => ret tt
  end.

Definition update_goal (goal_id uid : Z) (updates : gmap string pyval) : M GoalDict :=
  do _ <- _validate_user_exists uid;
  do _ <- validate_fields updates;
  do _ <- match updates !! "status" with
          | Some v => raise_if (negb (in_list v VALID_STATUSES)) invalid_status
          | None => ret tt
          end;
  do _ <- match updates !! "target_amount" with
          | Some v =>
              match le_zero v with
              | Some c =>
                  raise_if c (GoalValidationError
                                (Msg "Target amount must be greater than 0"))
              | None => raise TypeError
              end
          | None => ret tt
          end;
  do updates1 <- match updates !! "deadline" with
                 | Some v =>
                     do d <- _validate_and_parse_deadline v;
                     ret (<["deadline" := pyval_of_date d]> updates)
                 | None => ret updates
                 end;
  do updates2 <-
    (if bool_decide (is_Some (updates1 !! "linked_account_id")) ||
        bool_decide (is_Some (updates1 !! "linked_amount"))
     then
       do la <- _validate_and_convert_linked_fields
                  (get "linked_account_id" updates1) (get "linked_amount" updates1);
       let updates' :=
         <["linked_amount" := pyval_of_float la.2]>
           (<["linked_account_id" := pyval_of_int la.1]> updates1) in
       do _ <- check_linked uid la.1 la.2 (Some goal_id);
       ret updates'
     else ret updates1);
  try_except
    (do goal <- Repo.update_goal goal_id uid updates2;
     do db <- get_db;
     ret (to_dict (today db) goal))
    (fun e => raise (GoalValidationError
                       (MsgPrefixed "Error updating goal: " (str_of_exn e)))).

Definition delete_goal (goal_id uid : Z) : M bool :=
  do _ <- _validate_user_exists uid;
  try_except (Repo.delete_goal goal_id uid)
    (fun e => raise (GoalValidationError
                       (MsgPrefixed "Error deleting goal: " (str_of_exn e)))).

Definition _validate_progress_type (progress_type : string) : M unit :=
  raise_if (negb (bool_decide (progress_type ∈ ["manual"; "linked"])))
           (GoalValidationError
              (Msg "Invalid progress type. Must be one of: manual, linked")).

Definition _validate_amount (amount : Q) : M unit :=
  raise_if (Qle_bool amount 0)
           (GoalValidationError (Msg "Amount must be greater than 0")).

Definition update_goal_progress (goal_id uid : Z) (amount : Q)
    (progress_type : string) : M GoalDict :=
  do _ <- _validate_user_exists uid;
  do _ <- _validate_amount amount;
  do _ <- _validate_progress_type progress_type;
  do _ <- (if String.eqb progress_type "linked" then
             do db <- get_db;
             match Repo.get_goal_by_id goal_id uid db with
             | None => raise (GoalValidationError (MsgGoalId goal_id))
             | Some goal =>
                 match linked_account_id goal.2 with
                 | Some account_id =>
                     if account_id =? 0
                     then raise (GoalValidationError
                                   (Msg "Goal does not have a linked account"))
                     else _validate_linked_amount_total uid account_id
                            (fl (fl (or_zero (linked_amount goal.2)) + fl amount))
                            (Some goal_id)
                 | None =>
                     raise (GoalValidationError
                              (Msg "Goal does not have a linked account"))
                 end
             end
           else ret tt);
  try_except
    (do goal <- Repo.update_goal_progress goal_id uid (fl amount) progress_type;
     do db <- get_db;
     ret (to_dict (today db) goal))
    (fun e => raise (GoalValidationError
                       (MsgPrefixed "Error updating goal progress: "
                                    (str_of_exn e)))).

Definition get_goals_near_deadline (uid days : Z) : M (list GoalDict) :=
  do _ <- _validate_user_exists uid;
  do _ <- raise_if ((days <? 1) || (days >? 30))
                   (GoalValidationError (Msg "Days must be between 1 and 30"));
  do db <- get_db;
  ret (map (to_dict (today db)) (Repo.get_goals_near_deadline uid days db)).

End WithBuiltins.
End Facade.

(** ** An implementation of the numbers and of the built-ins

    Enough to run the operations on concrete payloads: binary64
    rounding, two-decimal columns, ASCII white space, unsigned decimal
    numerals and zero-padded ISO dates. *)

Module Plain.

(** The integer nearest to [x], the even one of two. *)
Definition rne (x : Q) : Z :=
  let f := Qfloor x in
  match (x - inject_Z f ?= 1 # 2)%Q with
  | Lt => f
  | Gt => f + 1
  | Eq => if Z.even f then f else f + 1
  end.

(** The binary exponent of a positive [x]: [2 ^ e <= x < 2 ^ (e + 1)]. *)
Definition ilog2 (x : Q) : Z :=
  let e0 := Z.log2 (Qnum x) - Z.log2 (Z.pos (Qden x)) in
  if Qle_bool (2 ^ e0) x then e0 else e0 - 1.

(** The number with 53 significant bits nearest to a positive [x], the
    one with an even last bit of two. *)
Definition round53 (x : Q) : Q :=
  let ulp := (2 ^ (ilog2 x - 52))%Q in
  (inject_Z (rne (x / ulp)) * ulp)%Q.

(** IEEE 754 binary64, round to nearest even, with an exponent of any
    size. *)
Definition binary64 (x : Q) : Q :=
  match (x ?= 0)%Q with
  | Eq => 0%Q
  | Gt => Qred (round53 x)
  | Lt => Qred (- round53 (- x))
  end.

(** Two decimals, the nearest ones, the even one of two.  Which way a
    tie goes depends on the database; no statement about the goal engine
    rests on it: each uses the laws of [Lawful] or meets no tie. *)
Definition two_decimals (x : Q) : Q := Qred (inject_Z (rne (x * 100)) / 100).

(** The positive numbers with 53 significant bits, and the numbers a
    float is. *)
Definition is_float (y : Q) : Prop :=
  exists m e, 2 ^ 52 <= m < 2 ^ 53 /\ (y == inject_Z m * 2 ^ (e - 52))%Q.

(** The numbers of two decimals. *)
Definition is_cents (x : Q) : Prop := exists k : Z, (x == inject_Z k / 100)%Q.

#[global] Instance numerics : Numerics :=
  {| fl := binary64; numeric := two_decimals |}.

Definition is_space (c : ascii) : bool :=
  let n := nat_of_ascii c in
  ((9 <=? n) && (n <=? 13))%nat || (n =? 32)%nat.

Fixpoint lstrip (s : string) : string :=
  match s with
  | String c rest => if is_space c then lstrip rest else s
  | EmptyString => EmptyString
  end.

Definition strip (s : string) : string :=
  String.rev (lstrip (String.rev (lstrip s))).

Definition digit (c : ascii) : option Z :=
  let n := nat_of_ascii c in
  if ((48 <=? n) && (n <=? 57))%nat then Some (Z.of_nat n - 48) else None.

Fixpoint digits (acc : Z) (s : string) : option Z :=
  match s with
  | EmptyString => Some acc
  | String c rest =>
      match digit c with
      | Some d => digits (10 * acc + d) rest
      | None => None
      end
  end.

Definition numeral (s : string) : option Z :=
  match s with
  | EmptyString => None
  | _ => digits 0 s
  end.

Definition decimal (s : string) : option Q :=
  match numeral s with
  | Some z => Some (binary64 (inject_Z z))
  | None => None
  end.

Definition is_leap (y : Z) : bool :=
  ((y mod 4 =? 0) && negb (y mod 100 =? 0)) || (y mod 400 =? 0).

Definition days_in_month (y m : Z) : Z :=
  if m =? 2 then (if is_leap y then 29 else 28)
  else if (m =? 4) || (m =? 6) || (m =? 9) || (m =? 11) then 30 else 31.

Fixpoint days_before_month (y : Z) (m : nat) : Z :=
  match m with
  | O => 0
  | S k => days_before_month y k + days_in_month y (Z.of_nat (S k))
  end.

(** [date(y, m, d).toordinal()]. *)
Definition ordinal (y m d : Z) : Z :=
  let p := y - 1 in
  365 * p + p / 4 - p / 100 + p / 400
  + days_before_month y (Z.to_nat (m - 1)) + d.

Definition iso_date (s : string) : option Z :=
  if negb (String.length s =? 10)%nat then None else
  match numeral (String.substring 0 4 s),
        String.get 4 s,
        numeral (String.substring 5 2 s),
        String.get 7 s,
        numeral (String.substring 8 2 s) with
  | Some y, Some "-"%char, Some m, Some "-"%char, Some d =>
      if (1 <=? y) && (1 <=? m) && (m <=? 12) && (1 <=? d) && (d <=? days_in_month y m)
      then Some (ordinal y m d) else None
  | _, _, _, _, _ => None
  end.

Definition builtins : Builtins :=
  {| str_strip := strip; int_of_str := numeral; float_of_str := decimal;
     strptime_ymd := iso_date |}.

End Plain.

(** ** Vocabulary of the statements *)

(** A computation that neither writes nor enters the ledger. *)
Definition pure {A} (m : M A) : Prop :=
  forall db, m db = (outcome (m db), db, []).

(** A computation that does not write. *)
Definition reads {A} (m : M A) : Prop :=
  forall db, final_db (m db) = db.

(** A computation that raises anything but [GoalNotFoundError]. *)
Definition hides_not_found {A} (m : M A) : Prop :=
  forall db e, outcome (m db) = Raise e -> is_not_found_error e = false.

(** The database after [create] inserted the row, and after a row was
    stored under its key. *)
Definition inserted (g : Goal) (db : DB) : DB :=
  {| users := users db; accounts := accounts db;
     goals := <[next_goal_id db := g]> (goals db);
     next_goal_id := next_goal_id db + 1; utcnow := utcnow db; today := today db |}.

Definition stored (i : Z) (g : Goal) (db : DB) : DB :=
  set_goals (<[i := g]> (goals db)) db.

(** The value a linked column takes from a payload entry. *)
Definition account_column (v : pyval) : option Z :=
  match v with PInt a => Some a | _ => None end.
Definition amount_column (v : pyval) : option Q :=
  match v with PNone => None | _ => float_of_num v end.

(** The repository step that ends [update_goal]. *)
Definition commit_update `{Numerics} (gid uid : Z) (updates : gmap string pyval) : M GoalDict :=
  try_except
    (bind (Repo.update_goal gid uid updates)
          (fun goal => bind get_db (fun db => ret (to_dict (today db) goal))))
    (fun e => raise (GoalValidationError
                       (MsgPrefixed "Error updating goal: " (str_of_exn e)))).

(** The repository step that ends [update_goal_progress]. *)
Definition commit_progress `{Numerics} (gid uid : Z) (amount : Q) (ty : string) : M GoalDict :=
  try_except
    (bind (Repo.update_goal_progress gid uid amount ty)
          (fun goal => bind get_db (fun db => ret (to_dict (today db) goal))))
    (fun e => raise (GoalValidationError
                       (MsgPrefixed "Error updating goal progress: " (str_of_exn e)))).

(** The row [update_goal_progress] commits for a goal:
    [Goal.update_progress], then the assigned amount rounded by its
    column. *)
Definition progressed `{Numerics} (now : Z) (amount : Q) (ty : string) (g : Goal)
    : Goal :=
  Repo.rounded_progress ty (GoalModel.update_progress now amount ty g).

(** The goal must have a truthy [linked_account_id] and pass the ledger
    for a linked contribution. *)
Definition linked_ready `{Numerics} (gid uid : Z) (amount : Q) (g : Goal) (db : DB)
    : Prop :=
  exists a, linked_account_id g = Some a /\ a <> 0 /\
    outcome (Facade._validate_linked_amount_total uid a
               (fl (fl (or_zero (linked_amount g)) + fl amount)) (Some gid) db) = Ok tt.

Definition progress_checks `{Numerics} (gid uid : Z) (amount : Q) (ty : string)
    (g : Goal) : list call :=
  if String.eqb ty "linked" then
    match linked_account_id g with
    | Some a =>
        [LedgerCheck uid a (fl (fl (or_zero (linked_amount g)) + fl amount)) (Some gid)]
    | None => []
    end
  else [].

Section LinkedPart.
Variable B : Builtins.
Context {N : Numerics}.

(** What the linked part of an update payload turns into. *)
Definition linked_part (gid uid : Z) (updates updates2 : gmap string pyval)
    (db : DB) (l : list call) : Prop :=
  if bool_decide (is_Some (updates !! "linked_account_id")) ||
     bool_decide (is_Some (updates !! "linked_amount"))
  then
    exists la lm,
      outcome (Facade._validate_and_convert_linked_fields B
                 (Facade.get "linked_account_id" updates)
                 (Facade.get "linked_amount" updates) db) = Ok (la, lm) /\
      updates2 !! "linked_account_id" = Some (Facade.pyval_of_int la) /\
      updates2 !! "linked_amount" = Some (Facade.pyval_of_float lm) /\
      outcome (Facade.check_linked uid la lm (Some gid) db) = Ok tt /\
      l = checks (Facade.check_linked uid la lm (Some gid) db)
  else
    updates2 !! "linked_account_id" = None /\
    updates2 !! "linked_amount" = None /\ l = [].

(** The ledger checks an operation that raised can have entered: none,
    or the one of the linked fields it converted. *)
Definition raised_checks (uid : Z) (kwargs : gmap string pyval)
    (exclude_goal_id : option Z) (db : DB) (l : list call) : Prop :=
  l = [] \/
  exists la lm,
    outcome (Facade._validate_and_convert_linked_fields B
               (Facade.get "linked_account_id" kwargs)
               (Facade.get "linked_amount" kwargs) db) = Ok (la, lm) /\
    l = checks (Facade.check_linked uid la lm exclude_goal_id db).

End LinkedPart.

(** The ledger admits reserving [amount] on the account: in floating
    point, the reserved total plus the amount does not exceed the
    available balance. *)
Definition ledger_admits `{Numerics} (uid account_id : Z) (amount : Q)
    (exclude_goal_id : option Z) (db : DB) : Prop :=
  exists account,
    Repo.get_by_id_and_user_id account_id uid db = Some account /\
    (fl (fl (Facade.total_reserved uid account_id exclude_goal_id db) + fl amount) <=
     fl (or_zero (available_balance account)))%Q.

(** A number a [Numeric(10, 2)] column holds: converted to a float and
    committed, it is read back as it was. *)
Definition column_value `{Numerics} (x : Q) : Prop := (numeric (fl x) == x)%Q.

(** The amounts of a row are numbers their columns hold. *)
Definition amounts_stored `{Numerics} (g : Goal) : Prop :=
  column_value (or_zero (current_amount g)) /\
  column_value (or_zero (linked_amount g)).

(** [linked_amount] present implies [linked_account_id] present. *)
Definition linked_consistent (g : Goal) : Prop :=
  is_Some (linked_amount g) -> is_Some (linked_account_id g).

Definition db_linked_consistent (db : DB) : Prop :=
  forall i g, goals db !! i = Some g -> linked_consistent g.

(** The payload gives a [linked_account_id] whenever it gives a
    [linked_amount]. *)
Definition payload_linked_consistent (kwargs : gmap string pyval) : Prop :=
  Facade.is_given (Facade.get "linked_amount" kwargs) = true ->
  Facade.is_given (Facade.get "linked_account_id" kwargs) = true.


(** ** Sample data *)

Definition acc500 : Account :=
  {| acc_user_id := 1; available_balance := Some 500%Q; is_active := true |}.

(** User 1 with account 7, whose available balance is 500, and no goal. *)
Definition bank500 : DB :=
  {| users := {[1]}; accounts := {[7 := acc500]}; goals := ∅;
     next_goal_id := 1; utcnow := 1000; today := 739000 |}.

Definition goal_a : gmap string pyval :=
  {["title" := PStr "Car"; "target_amount" := PInt 1000;
    "linked_account_id" := PInt 7; "linked_amount" := PInt 500]}.

Definition goal_b : gmap string pyval :=
  {["title" := PStr "Bike"; "target_amount" := PInt 300;
    "linked_account_id" := PInt 7; "linked_amount" := PInt 100]}.

(** A payload with a reserved amount and no account. *)
Definition goal_unlinked : gmap string pyval :=
  {["title" := PStr "Trip"; "target_amount" := PInt 1000;
    "linked_amount" := PInt 100]}.

(** [bank500] after Goal A was created: goal 1 reserves 500 on account 7. *)
Definition bank_a : DB :=
  final_db (Facade.create_goal Plain.builtins 1 goal_a bank500).

(** An update payload that sets a reserved amount and names no account. *)
Definition amount_update : gmap string pyval :=
  {["title" := PStr "Car"; "target_amount" := PInt 1000;
    "linked_amount" := PInt 9999]}.

(** An update payload without linked fields. *)
Definition title_update : gmap string pyval :=
  {["title" := PStr "New"; "target_amount" := PInt 1000]}.

(** A goal of user 1 on account 7 that reserves [q] of it. *)
Definition reserving (q : Q) : Goal :=
  {| user_id := 1; title := PStr "Goal"; description := PNone;
     target_amount := 100; current_amount := Some 0%Q; deadline := None;
     category := PNone; status := "active"; created_at := 0; updated_at := 0;
     linked_account_id := Some 7; linked_amount := Some q |}.

Definition acc041 : Account :=
  {| acc_user_id := 1; available_balance := Some (41 # 100); is_active := true |}.

(** Account 7 has 0.41 available and goal 1 reserves 0.16 of it. *)
Definition cents_db : DB :=
  {| users := {[1]}; accounts := {[7 := acc041]};
     goals := {[1 := reserving (16 # 100)]};
     next_goal_id := 2; utcnow := 1000; today := 739000 |}.

(** A payload that reserves 0.25 on account 7. *)
Definition goal_quarter : gmap string pyval :=
  {["title" := PStr "Bike"; "target_amount" := PInt 300;
    "linked_account_id" := PInt 7; "linked_amount" := PFloat (25 # 100)]}.

(** Account 7 has 0.30 available; goals 1 and 2 reserve 0.10 and 0.20. *)
Definition dimes_db : DB :=
  {| users := {[1]};
     accounts := {[7 := {| acc_user_id := 1; available_balance := Some (30 # 100);
                           is_active := true |}]};
     goals := {[1 := reserving (10 # 100); 2 := reserving (20 # 100)]};
     next_goal_id := 3; utcnow := 1000; today := 739000 |}.

Definition sample_goal (uid : Z) (dl : option Z) (st : string) : Goal :=
  {| user_id := uid; title := PStr "Goal"; description := PNone;
     target_amount := 100; current_amount := Some 0%Q; deadline := dl;
     category := PNone; status := st; created_at := 0; updated_at := 0;
     linked_account_id := None; linked_amount := None |}.

(** Today is day 739000.  User 1 has active goals due in 3, 1 and 10
    days, a completed goal due in 2 days and a goal without deadline;
    goal 6 belongs to user 2. *)
Definition deadlines_db : DB :=
  {| users := {[1; 2]}; accounts := ∅;
     goals := {[1 := sample_goal 1 (Some 739003) "active";
                2 := sample_goal 1 (Some 739001) "active";
                3 := sample_goal 1 (Some 739010) "active";
                4 := sample_goal 1 (Some 739002) "completed";
                5 := sample_goal 1 None "active";
                6 := sample_goal 2 (Some 739001) "active"]};
     next_goal_id := 7; utcnow := 1000; today := 739000 |}.

(** A goal of user 1 with no account: [target] to reach, [current]
    contributed. *)
Definition saving (target current : Q) : Goal :=
  {| user_id := 1; title := PStr "Goal"; description := PNone;
     target_amount := target; current_amount := Some current; deadline := None;
     category := PNone; status := "active"; created_at := 0; updated_at := 0;
     linked_account_id := None; linked_amount := None |}.

(** User 1 with one goal: target 0.34, 0.09 contributed. *)
Definition coins_db : DB :=
  {| users := {[1]}; accounts := ∅;
     goals := {[1 := saving (34 # 100) (9 # 100)]};
     next_goal_id := 2; utcnow := 1000; today := 739000 |}.

(** User 1 with one goal: target 100, nothing contributed, no account. *)
Definition savings_db : DB :=
  {| users := {[1]}; accounts := ∅;
     goals := {[1 := sample_goal 1 None "active"]};
     next_goal_id := 2; utcnow := 1000; today := 739000 |}.

(** ** The model on small inputs *)

Example strip_title : Plain.strip "  Car trip " = "Car trip".
Proof. reflexivity. Qed.

Example iso_date_ordinal : Plain.iso_date "2024-03-01" = Some 738946.
Proof. reflexivity. Qed.

Example iso_date_rejects_february_30 : Plain.iso_date "2024-02-30" = None.
Proof. reflexivity. Qed.

(** A new goal with target 1000 reserving 500 stands at 50 percent. *)
Example created_goal_percentage :
  match outcome (Facade.create_goal Plain.builtins 1 goal_a bank500) with
  | Ok d => (progress_percentage d == 50)%Q /\ d_id d = 1
  | Raise _ => False
  end.
Proof. vm_compute. split; reflexivity. Qed.

(** A title of blanks is no title. *)
Example blank_title_rejected :
  outcome (Facade.create_goal Plain.builtins 1
             {["title" := PStr "   "; "target_amount" := PInt 10]} bank500) =
  Raise (GoalValidationError (Msg "Title is required")).
Proof. vm_compute. reflexivity. Qed.

(** A target of zero is rejected, a textual target is a [TypeError]. *)
Example zero_target_rejected :
  outcome (Facade.create_goal Plain.builtins 1
             {["title" := PStr "Car"; "target_amount" := PInt 0]} bank500) =
  Raise (GoalValidationError (Msg "Target amount must be greater than 0")) /\
  outcome (Facade.create_goal Plain.builtins 1
             {["title" := PStr "Car"; "target_amount" := PStr "ten"]} bank500) =
  Raise TypeError.
Proof. split; vm_compute; reflexivity. Qed.

(** An overdue goal is an active one past its deadline. *)
Example overdue_only_when_active :
  GoalModel.is_overdue 739000 (sample_goal 1 (Some 738999) "active") = true /\
  GoalModel.is_overdue 739000 (sample_goal 1 (Some 738999) "completed") = false /\
  GoalModel.is_overdue 739000 (sample_goal 1 None "active") = false.
Proof. repeat split; reflexivity. Qed.

(** ** Running the monad *)

Lemma pure_ret {A} (a : A) : pure (ret a).
Proof. done. Qed.
Lemma pure_raise {A} (e : exn) : pure (@raise A e).
Proof. done. Qed.
Lemma pure_raise_if c e : pure (raise_if c e).
Proof. by destruct c. Qed.
Lemma pure_get_db : pure get_db.
Proof. done. Qed.

(** Pure steps compose. *)
Lemma pure_bind {A B} (m : M A) (k : A -> M B) :
  pure m -> (forall a, pure (k a)) -> pure (bind m k).
Proof.
  intros Hm Hk db. unfold bind. specialize (Hm db).
  destruct (m db) as [[[a|e] d] l]; injection Hm as -> ->; [|done].
  specialize (Hk a db).
  destruct (k a db) as [[r d] l]; by injection Hk as -> ->.
Qed.

(** Running a pure step in front of a continuation. *)
Lemma bind_pure_run {A B} (m : M A) (k : A -> M B) db :
  pure m ->
  bind m k db =
  match outcome (m db) with
  | Ok a => k a db
  | Raise e => (Raise e, db, [])
  end.
Proof.
  intros Hm. unfold bind. specialize (Hm db).
  destruct (m db) as [[[a|e] d] l]; injection Hm as -> ->; [|done].
  unfold outcome; simpl. by destruct (k a db) as [[r d] l].
Qed.

Create HintDb pure.
#[local] Hint Resolve pure_ret pure_raise pure_raise_if pure_get_db : pure.

Ltac pure_cases :=
  repeat (simpl;
          match goal with
          | |- pure (bind _ _) => apply pure_bind; [|intros ?]
          | |- pure (if ?c then _ else _) => destruct c
          | |- pure (match ?x with _ => _ end) => destruct x
          | |- pure _ => solve [auto with pure]
          end).

Section Facts.
Variable B : Builtins.

Lemma pure_validate_user_exists uid : pure (Facade._validate_user_exists uid).
Proof. unfold Facade._validate_user_exists. pure_cases. Qed.

Lemma pure_strip v : pure (Facade.strip B v).
Proof. unfold Facade.strip. pure_cases. Qed.

Lemma pure_parse_deadline v : pure (Facade._validate_and_parse_deadline B v).
Proof. unfold Facade._validate_and_parse_deadline. pure_cases. Qed.

Lemma pure_convert {N : Numerics} a m : pure (Facade._validate_and_convert_linked_fields B a m).
Proof. unfold Facade._validate_and_convert_linked_fields. pure_cases. Qed.

Lemma pure_validate_fields u : pure (Facade.validate_fields u).
Proof. unfold Facade.validate_fields. pure_cases. Qed.

Lemma pure_validate_amount q : pure (Facade._validate_amount q).
Proof. unfold Facade._validate_amount. pure_cases. Qed.

Lemma pure_validate_progress_type t : pure (Facade._validate_progress_type t).
Proof. unfold Facade._validate_progress_type. pure_cases. Qed.

End Facts.

(** Running a step that only reads in front of a continuation. *)
Lemma bind_reads_run {A B} (m : M A) (k : A -> M B) db :
  reads m ->
  bind m k db =
  match outcome (m db) with
  | Ok a => (outcome (k a db), final_db (k a db), checks (m db) ++ checks (k a db))
  | Raise e => (Raise e, db, checks (m db))
  end.
Proof.
  intros Hm. unfold bind. specialize (Hm db). unfold final_db, outcome, checks in *.
  destruct (m db) as [[[a|e] d] l]; simpl in *; subst d; [|done].
  by destruct (k a db) as [[r d] l'].
Qed.

Lemma reads_ledger {N : Numerics} uid a q excl : reads (Facade._validate_linked_amount_total uid a q excl).
Proof.
  intros db. unfold Facade._validate_linked_amount_total, bind, tell, get_db, final_db.
  simpl. destruct (Repo.get_by_id_and_user_id a uid db); [|done].
  unfold raise_if. by destruct (Qgtb _ _).
Qed.

Lemma reads_check_linked {N : Numerics} uid a m excl : reads (Facade.check_linked uid a m excl).
Proof.
  unfold Facade.check_linked. destruct a as [a|], m as [q|]; try done.
  destruct (negb (a =? 0)); [apply reads_ledger|done].
Qed.

Section Create.
Variable B : Builtins.

(** [create_goal] either raises, leaving the database as it was, or
    inserts the row built from the validated payload, its amounts
    rounded by their columns, and returns its dictionary, having entered
    the checks of [check_linked]. *)
Lemma create_goal_cases {N : Numerics} uid kwargs db :
  (exists e l, Facade.create_goal B uid kwargs db = (Raise e, db, l) /\
               raised_checks B uid kwargs None db l) \/
  (exists title0 target desc dl la lm,
      Repo.user_exists uid db = true /\
      outcome (Facade._validate_and_convert_linked_fields B
                 (Facade.get "linked_account_id" kwargs)
                 (Facade.get "linked_amount" kwargs) db) = Ok (la, lm) /\
      outcome (Facade.check_linked uid la lm None db) = Ok tt /\
      (0 < target)%Q /\
      let g := Repo.rounded_linked
                 (Repo.rounded_target
                    (GoalModel.init (utcnow db) uid (PStr title0) target desc dl
                       (Facade.get "category" kwargs) la lm)) in
      Facade.create_goal B uid kwargs db =
      (Ok (to_dict (today db) (next_goal_id db, g)), inserted g db,
       checks (Facade.check_linked uid la lm None db))).
Proof.
  unfold Facade.create_goal.
  rewrite bind_pure_run by apply pure_validate_user_exists.
  destruct (outcome (Facade._validate_user_exists uid db)) as [[]|e] eqn:Eu;
    [|left; unfold raised_checks; eauto 10].
  assert (Hu : Repo.user_exists uid db = true).
  { unfold Facade._validate_user_exists, bind, get_db, raise_if, outcome in Eu.
    simpl in Eu. by destruct (Repo.user_exists uid db). }
  rewrite bind_pure_run by apply pure_strip.
  destruct (outcome (Facade.strip B _ db)) as [title0|e]; [|left; unfold raised_checks; eauto 10].
  rewrite bind_pure_run by apply pure_raise_if.
  destruct (outcome (raise_if _ _ db)) as [[]|e]; [|left; unfold raised_checks; eauto 10].
  rewrite bind_pure_run by pure_cases.
  match goal with |- context [outcome ?m] =>
    destruct (outcome m) as [target|e] eqn:Et; [|left; unfold raised_checks; eauto 10] end.
  assert (Ht : (0 < target)%Q).
  { destruct (negb (truthy _)); [done|].
    destruct (Facade.get "target_amount" kwargs) as [|z|q|s|dd]; simpl in Et; try done.
    - destruct (z <=? 0) eqn:Ez; [done|]. injection Et as <-.
      apply Z.leb_gt in Ez. unfold Qlt. simpl. lia.
    - destruct (Qle_bool q 0) eqn:Eq; [done|]. injection Et as <-.
      apply Qnot_le_lt. intros Hle. apply Qle_bool_iff in Hle. congruence. }
  clear Et.
  rewrite bind_pure_run by apply pure_parse_deadline.
  destruct (outcome (Facade._validate_and_parse_deadline B _ db)) as [dl|e];
    [|left; unfold raised_checks; eauto 10].
  rewrite bind_pure_run by apply pure_raise_if.
  destruct (outcome (raise_if _ _ db)) as [[]|e]; [|left; unfold raised_checks; eauto 10].
  rewrite bind_pure_run by apply pure_convert.
  destruct (outcome (Facade._validate_and_convert_linked_fields B _ _ db))
    as [[la lm]|e] eqn:Ec; [|left; unfold raised_checks; eauto 10].
  rewrite bind_reads_run by apply reads_check_linked. simpl.
  destruct (outcome (Facade.check_linked uid la lm None db)) as [[]|e] eqn:Ek;
    [|left; unfold raised_checks; eauto 10].
  rewrite bind_pure_run by apply pure_strip.
  destruct (outcome (Facade.strip B _ db)) as [desc|e];
    [|left; rewrite app_nil_r; unfold raised_checks; eauto 10].
  right. eexists title0, target, _, dl, la, lm.
  repeat split; try done.
  rewrite app_nil_r. reflexivity.
Qed.
End Create.

(** The ledger check records its entry, whatever its outcome. *)
Lemma ledger_checks {N : Numerics} uid a q excl db :
  checks (Facade._validate_linked_amount_total uid a q excl db) = [LedgerCheck uid a q excl].
Proof.
  unfold Facade._validate_linked_amount_total, bind, tell, get_db, checks. simpl.
  destruct (Repo.get_by_id_and_user_id a uid db); [|done].
  unfold raise_if. by destruct (Qgtb _ _).
Qed.

(** The linked columns after one assignment, and after all of them. *)
Lemma setattr_linked key v g g' :
  Repo.setattr key v g = Some g' ->
  linked_account_id g' =
    (if String.eqb key "linked_account_id" then account_column v
     else linked_account_id g) /\
  linked_amount g' =
    (if String.eqb key "linked_amount" then amount_column v
     else linked_amount g).
Proof.
  unfold Repo.setattr. intros H.
  repeat match type of H with
         | context [if String.eqb key ?s then _ else _] =>
             destruct (String.eqb_spec key s) as [->|?]; simpl in H |- *
         end;
    repeat match type of H with
           | context [match ?x with _ => _ end] =>
               destruct x; simpl in H; try discriminate H
           end;
    injection H as <-; simpl; try done;
    repeat match goal with
           | |- context [String.eqb key ?s] =>
               destruct (String.eqb_spec key s); try done
           end.

Qed.

Lemma bool_decide_elem_cons (x key : string) (rest : list string) :
  bool_decide (x ∈ key :: rest) = String.eqb key x || bool_decide (x ∈ rest).
Proof.
  destruct (String.eqb_spec key x) as [->|Hne]; simpl.
  - apply bool_decide_eq_true_2, list_elem_of_here.
  - apply bool_decide_ext. rewrite elem_of_cons.
    split; [intros [?|?]; [congruence|done] | by right].
Qed.

Lemma set_columns_linked keys u g g1 :
  Repo.set_columns keys u g = Some g1 ->
  linked_account_id g1 =
    (if bool_decide ("linked_account_id" ∈ keys) then
       match u !! "linked_account_id" with
       | Some v => account_column v
       | None => linked_account_id g
       end
     else linked_account_id g) /\
  linked_amount g1 =
    (if bool_decide ("linked_amount" ∈ keys) then
       match u !! "linked_amount" with
       | Some v => amount_column v
       | None => linked_amount g
       end
     else linked_amount g).
Proof.
  revert g. induction keys as [|key rest IH]; intros g H; simpl in H.
  - by injection H as ->.
  - rewrite !bool_decide_elem_cons.
    destruct (u !! key) as [v|] eqn:Ev.
    + destruct (Repo.setattr key v g) as [g'|] eqn:Es; [|done].
      destruct (setattr_linked _ _ _ _ Es) as [Ha Hm].
      destruct (IH _ H) as [-> ->]. clear IH Es. rewrite Ha, Hm.
      split.
      * destruct (String.eqb_spec key "linked_account_id") as [->|Hne]; simpl;
          [rewrite Ev; by case_bool_decide | done].
      * destruct (String.eqb_spec key "linked_amount") as [->|Hne]; simpl;
          [rewrite Ev; by case_bool_decide | done].
    + destruct (IH _ H) as [-> ->]. clear IH.
      split.
      * destruct (String.eqb_spec key "linked_account_id") as [->|Hne]; simpl;
          [rewrite Ev; by case_bool_decide | done].
      * destruct (String.eqb_spec key "linked_amount") as [->|Hne]; simpl;
          [rewrite Ev; by case_bool_decide | done].
Qed.


(** A goal found by id is the row under that id, owned by the user. *)
Lemma get_goal_by_id_key gid uid db o :
  Repo.get_goal_by_id gid uid db = Some o ->
  o.1 = gid /\ goals db !! gid = Some o.2 /\ user_id o.2 = uid.
Proof.
  unfold Repo.get_goal_by_id. destruct (goals db !! gid) as [g|]; [|done].
  destruct (user_id g =? uid) eqn:E; [|done]. intros [= <-].
  apply Z.eqb_eq in E. done.
Qed.


Lemma hides_ret {A} (a : A) : hides_not_found (ret a).
Proof. intros db e H. discriminate H. Qed.
Lemma hides_get_db : hides_not_found get_db.
Proof. intros db e H. discriminate H. Qed.
Lemma hides_tell c : hides_not_found (tell c).
Proof. intros db e H. discriminate H. Qed.
Lemma hides_raise_validation {A} m : hides_not_found (@raise A (GoalValidationError m)).
Proof. intros db e [= <-]. done. Qed.
Lemma hides_raise_type {A} : hides_not_found (@raise A TypeError).
Proof. intros db e [= <-]. done. Qed.
Lemma hides_raise_attribute {A} : hides_not_found (@raise A AttributeError).
Proof. intros db e [= <-]. done. Qed.
Lemma hides_raise_if c m : hides_not_found (raise_if c (GoalValidationError m)).
Proof. destruct c; [apply hides_raise_validation|apply hides_ret]. Qed.

(** [hides_not_found] is kept by sequencing and established by a handler
    that re-raises something else. *)
Lemma hides_bind {A B} (m : M A) (k : A -> M B) :
  hides_not_found m -> (forall a, hides_not_found (k a)) ->
  hides_not_found (bind m k).
Proof.
  intros Hm Hk db e. unfold bind, outcome. specialize (Hm db).
  destruct (m db) as [[[a|e'] d] l]; simpl.
  - specialize (Hk a d e). unfold outcome in Hk.
    destruct (k a d) as [[r d'] l']. exact Hk.
  - intros [= <-]. by apply Hm.
Qed.

Lemma hides_try_except {A} (m : M A) h :
  (forall e, hides_not_found (h e)) -> hides_not_found (try_except m h).
Proof.
  intros Hh db e. unfold try_except, outcome.
  destruct (m db) as [[[a|e'] d] l]; simpl; [done|].
  specialize (Hh e' d e). unfold outcome in Hh.
  destruct (h e' d) as [[r d'] l']. exact Hh.
Qed.

Create HintDb hides.
#[local] Hint Resolve hides_ret hides_get_db hides_tell hides_raise_validation
  hides_raise_type hides_raise_attribute hides_raise_if : hides.

Ltac hides_cases :=
  repeat (simpl;
          match goal with
          | |- hides_not_found (bind _ _) => apply hides_bind; [|intros ?]
          | |- hides_not_found (try_except _ _) => apply hides_try_except; intros ?
          | |- hides_not_found (if ?c then _ else _) => destruct c
          | |- hides_not_found (match ?x with _ => _ end) => destruct x
          | |- hides_not_found _ => solve [auto with hides]
          end).

Section Hides.
Variable B : Builtins.

Lemma hides_update_goal {N : Numerics} gid uid updates :
  hides_not_found (Facade.update_goal B gid uid updates).
Proof.
  unfold Facade.update_goal, Facade._validate_user_exists, Facade.validate_fields,
    Facade._validate_and_parse_deadline, Facade._validate_and_convert_linked_fields,
    Facade.check_linked, Facade._validate_linked_amount_total, Facade.invalid_status.
  hides_cases.
Qed.

End Hides.

Lemma user_exists_of_validate uid db :
  outcome (Facade._validate_user_exists uid db) = Ok tt ->
  Repo.user_exists uid db = true.
Proof.
  unfold Facade._validate_user_exists, bind, get_db, raise_if, outcome.
  simpl. by destruct (Repo.user_exists uid db).
Qed.

Lemma validate_user_exists_run uid db :
  Repo.user_exists uid db = true ->
  Facade._validate_user_exists uid db = (Ok tt, db, []).
Proof.
  intros H. unfold Facade._validate_user_exists, bind, get_db, raise_if.
  simpl. by rewrite H.
Qed.

#[local] Arguments Repo.set_columns : simpl never.

(** The last step of [update_goal]: it raises when the goal is not found
    or an assignment fails, and otherwise stores the assigned row, its
    assigned amounts rounded by their columns. *)
Lemma commit_update_cases {N : Numerics} gid uid updates db :
  (exists e, commit_update gid uid updates db = (Raise e, db, [])) \/
  (exists g g1,
      Repo.get_goal_by_id gid uid db = Some (gid, g) /\
      Repo.set_columns Repo.columns updates g = Some g1 /\
      let g2 := Repo.rounded_columns updates
                  (GoalModel.with_updated_at (utcnow db) g1) in
      commit_update gid uid updates db =
      (Ok (to_dict (today db) (gid, g2)), stored gid g2 db, [])).
Proof.
  unfold commit_update, Repo.update_goal, Repo.update, Repo.store, try_except, bind,
    get_db, ret, raise.
  destruct (Repo.get_goal_by_id gid uid db) as [o|] eqn:Eg; [|left; eauto].
  destruct (get_goal_by_id_key _ _ _ _ Eg) as (Hid & _).
  destruct o as [i g]. simpl in Hid. subst i. simpl.
  destruct (Repo.set_columns Repo.columns updates g) as [g1|] eqn:Esc; simpl;
    [|left; eauto].
  right. by exists g, g1.
Qed.

Section Update.
Variable B : Builtins.

(** [update_goal] either raises, leaving the database as it was, or
    stores the goal with the columns of the processed payload assigned. *)
Lemma update_goal_cases {N : Numerics} gid uid updates db :
  (exists e l, Facade.update_goal B gid uid updates db = (Raise e, db, l) /\
               raised_checks B uid updates (Some gid) db l) \/
  (exists g g1 updates2 l,
      Repo.user_exists uid db = true /\
      Repo.get_goal_by_id gid uid db = Some (gid, g) /\
      linked_part B gid uid updates updates2 db l /\
      Repo.set_columns Repo.columns updates2 g = Some g1 /\
      let g2 := Repo.rounded_columns updates2
                  (GoalModel.with_updated_at (utcnow db) g1) in
      Facade.update_goal B gid uid updates db =
      (Ok (to_dict (today db) (gid, g2)), stored gid g2 db, l)).
Proof.
  unfold Facade.update_goal.
  rewrite bind_pure_run by apply pure_validate_user_exists.
  destruct (outcome (Facade._validate_user_exists uid db)) as [[]|e] eqn:Eu;
    [|left; unfold raised_checks; eauto 10].
  apply user_exists_of_validate in Eu.
  rewrite bind_pure_run by apply pure_validate_fields.
  destruct (outcome (Facade.validate_fields updates db)) as [[]|e];
    [|left; unfold raised_checks; eauto 10].
  rewrite bind_pure_run by pure_cases.
  match goal with |- context [outcome ?m] =>
    destruct (outcome m) as [[]|e] end; [|left; unfold raised_checks; eauto 10].
  rewrite bind_pure_run by pure_cases.
  match goal with |- context [outcome ?m] =>
    destruct (outcome m) as [[]|e] end; [|left; unfold raised_checks; eauto 10].
  rewrite bind_pure_run.
  2:{ destruct (updates !! "deadline"); [|auto with pure].
      apply pure_bind; [apply pure_parse_deadline|auto with pure]. }
  match goal with |- context [outcome ?m] =>
    destruct (outcome m) as [updates1|e] eqn:Ed end; [|left; unfold raised_checks; eauto 10].
  assert (Hk : forall k, k <> "deadline" -> updates1 !! k = updates !! k).
  { intros k Hk. destruct (updates !! "deadline") as [v|].
    - rewrite bind_pure_run in Ed by apply pure_parse_deadline.
      destruct (outcome (Facade._validate_and_parse_deadline B v db)); [|done].
      unfold outcome in Ed. simpl in Ed. simplify_eq.
      by rewrite lookup_insert_ne.
    - unfold outcome in Ed. simpl in Ed. by simplify_eq. }
  clear Ed.
  unfold Facade.get. rewrite !Hk by done.
  fold (Facade.get "linked_account_id" updates).
  fold (Facade.get "linked_amount" updates).
  destruct (bool_decide (is_Some (updates !! "linked_account_id")) ||
            bool_decide (is_Some (updates !! "linked_amount"))) eqn:Elk.
  - rewrite bind_reads_run.
    2:{ intros db0. rewrite bind_pure_run by apply pure_convert.
        destruct (outcome _) as [[la lm]|]; [|done].
        rewrite bind_reads_run by apply reads_check_linked.
        by destruct (outcome _). }
    rewrite !(bind_pure_run (Facade._validate_and_convert_linked_fields B _ _))
      by apply pure_convert.
    destruct (outcome (Facade._validate_and_convert_linked_fields B _ _ db))
      as [[la lm]|e] eqn:Ec; [|left; unfold raised_checks; eauto 10].
    simpl. rewrite !bind_reads_run by apply reads_check_linked.
    destruct (outcome (Facade.check_linked uid la lm (Some gid) db)) as [[]|e] eqn:Ek;
      [|left; unfold outcome, checks, raised_checks; simpl; eauto 10].
    unfold outcome at 1 2, final_db at 1, checks at 2. simpl.
    rewrite app_nil_r.
    match goal with |- context [try_except _ _ db] =>
      fold (commit_update gid uid
              (<["linked_amount":=Facade.pyval_of_float lm]>
                 (<["linked_account_id":=Facade.pyval_of_int la]> updates1)))
    end.
    destruct (commit_update_cases gid uid
                (<["linked_amount":=Facade.pyval_of_float lm]>
                   (<["linked_account_id":=Facade.pyval_of_int la]> updates1)) db)
      as [(e & ->)|(g & g1 & Hg & Hsc & ->)].
    + left. unfold outcome, final_db, checks, raised_checks. simpl.
      rewrite app_nil_r. eauto 10.
    + right. exists g, g1. eexists. eexists. split; [done|]. split; [done|].
      split; [|split; [exact Hsc|]].
      * unfold linked_part. rewrite Elk. exists la, lm.
        split; [done|]. split; [by rewrite lookup_insert_ne, lookup_insert_eq|].
        split; [by rewrite lookup_insert_eq|]. split; [done|reflexivity].
      * unfold outcome, final_db, checks. simpl. by rewrite app_nil_r.
  - rewrite bind_pure_run by auto with pure. unfold outcome at 1. simpl.
    fold (commit_update gid uid updates1).
    destruct (commit_update_cases gid uid updates1 db)
      as [(e & ->)|(g & g1 & Hg & Hsc & ->)].
    + left. unfold raised_checks. eauto 10.
    + right. exists g, g1, updates1, []. split; [done|]. split; [done|].
      split; [|split; done].
      unfold linked_part. rewrite Elk. rewrite !Hk by done.
      apply orb_false_elim in Elk as [E1 E2].
      apply bool_decide_eq_false in E1, E2.
      rewrite <- eq_None_not_Some in E1, E2. done.
Qed.
End Update.

(** The last step of [update_goal_progress]. *)
Lemma commit_progress_cases {N : Numerics} gid uid amount ty db :
  (exists m, Repo.get_goal_by_id gid uid db = None /\
             commit_progress gid uid amount ty db =
             (Raise (GoalValidationError m), db, [])) \/
  (exists g,
      Repo.get_goal_by_id gid uid db = Some (gid, g) /\
      commit_progress gid uid amount ty db =
      (Ok (to_dict (today db) (gid, progressed (utcnow db) amount ty g)),
       stored gid (progressed (utcnow db) amount ty g) db, [])).
Proof.
  unfold commit_progress, Repo.update_goal_progress, Repo.store, try_except, bind,
    get_db, ret, raise.
  destruct (Repo.get_goal_by_id gid uid db) as [o|] eqn:Eg; simpl; [|left; eauto].
  destruct (get_goal_by_id_key _ _ _ _ Eg) as (Hid & _).
  destruct o as [i g]. simpl in Hid. subst i.
  right. by exists g.
Qed.

(** [update_goal_progress] either raises [GoalValidationError], leaving
    the database as it was, or stores the goal after
    [Goal.update_progress] on [float(amount)] and the rounding of the
    commit. *)
Lemma update_goal_progress_cases {N : Numerics} gid uid amount ty db :
  (exists m l, Facade.update_goal_progress gid uid amount ty db =
                 (Raise (GoalValidationError m), db, l)) \/
  (exists g,
      Repo.user_exists uid db = true /\ (0 < amount)%Q /\
      (ty = "manual" \/ ty = "linked") /\
      Repo.get_goal_by_id gid uid db = Some (gid, g) /\
      (ty = "linked" -> linked_ready gid uid amount g db) /\
      let g' := progressed (utcnow db) (fl amount) ty g in
      Facade.update_goal_progress gid uid amount ty db =
      (Ok (to_dict (today db) (gid, g')), stored gid g' db,
       progress_checks gid uid amount ty g)).
Proof.
  unfold Facade.update_goal_progress.
  fold (commit_progress gid uid (fl amount) ty).
  destruct (Repo.user_exists uid db) eqn:Hu.
  2:{ left. unfold bind at 1. unfold Facade._validate_user_exists, bind, get_db, raise_if.
      simpl. rewrite Hu. simpl. eauto. }
  rewrite bind_pure_run by apply pure_validate_user_exists.
  rewrite (validate_user_exists_run _ _ Hu). cbn [outcome fst].
  unfold Facade._validate_amount, Facade._validate_progress_type.
  rewrite bind_pure_run by apply pure_raise_if. unfold raise_if at 1.
  destruct (Qle_bool amount 0) eqn:Ea; [left; cbn [outcome fst raise]; eauto|].
  assert (Hpos : (0 < amount)%Q).
  { apply Qnot_le_lt. intros Hle. apply Qle_bool_iff in Hle. congruence. }
  cbn [outcome fst ret].
  rewrite bind_pure_run by apply pure_raise_if. unfold raise_if at 1.
  case_bool_decide as Hty; cbn [negb outcome fst ret raise]; [|left; eauto].
  assert (Hty' : ty = "manual" \/ ty = "linked").
  { apply elem_of_cons in Hty as [->|Hty]; [by left|].
    apply elem_of_cons in Hty as [->|Hty]; [by right|]. by apply elem_of_nil in Hty. }
  destruct (String.eqb_spec ty "linked") as [->|Hne].
  - rewrite bind_reads_run.
    2:{ intros db0. rewrite bind_pure_run by apply pure_get_db.
        cbn [outcome fst get_db].
        destruct (Repo.get_goal_by_id gid uid db0) as [o|]; [|done].
        destruct (linked_account_id o.2) as [a|]; [|done].
        destruct (a =? 0); [done|]. apply reads_ledger. }
    rewrite !(bind_pure_run get_db) by apply pure_get_db.
    cbn [outcome fst get_db].
    destruct (Repo.get_goal_by_id gid uid db) as [o|] eqn:Eg;
      [|left; cbn [outcome checks fst snd raise]; eauto].
    destruct (get_goal_by_id_key _ _ _ _ Eg) as (Hid & _).
    destruct o as [i g]. simpl in Hid. subst i. cbn [snd].
    destruct (linked_account_id g) as [a|] eqn:Ela;
      [|left; cbn [outcome checks fst snd raise]; eauto].
    destruct (a =? 0) eqn:Ez; [left; cbn [outcome checks fst snd raise]; eauto|].
    apply Z.eqb_neq in Ez.
    rewrite ledger_checks.
    destruct (outcome (Facade._validate_linked_amount_total uid a _ (Some gid) db))
      as [[]|e] eqn:Ek.
    + destruct (commit_progress_cases gid uid (fl amount) "linked" db)
        as [(m & Hnone & ->)|(g0 & Hg0 & ->)].
      * left. cbn [outcome final_db checks fst snd]. rewrite app_nil_r. eauto.
      * right. rewrite Eg in Hg0. injection Hg0 as <-.
        exists g. repeat split; try done.
        -- intros _. exists a. done.
        -- cbn [outcome final_db checks fst snd]. rewrite app_nil_r.
           unfold progress_checks. simpl. by rewrite Ela.
    + left. revert Ek.
      unfold Facade._validate_linked_amount_total, bind, tell, get_db, outcome. simpl.
      destruct (Repo.get_by_id_and_user_id a uid db); simpl; [|intros [= <-]; eauto].
      unfold raise_if. destruct (Qgtb _ _); simpl; [intros [= <-]; eauto|done].
  - rewrite bind_pure_run by apply pure_ret. cbn [outcome fst ret].
    destruct (commit_progress_cases gid uid (fl amount) ty db)
      as [(m & Hnone & ->)|(g0 & Hg0 & ->)].
    + left. eauto.
    + right. exists g0. destruct Hty' as [-> | ->]; [|done].
      repeat split; try done. by left.
Qed.

(** ** Arithmetic of the Goal model *)

Lemma Qle_bool_false a b : Qle_bool a b = false <-> (b < a)%Q.
Proof.
  split.
  - intros H. apply Qnot_le_lt. intros Hle. apply Qle_bool_iff in Hle. congruence.
  - intros H. destruct (Qle_bool a b) eqn:E; [|done].
    apply Qle_bool_iff in E. exfalso. exact (Qlt_not_le _ _ H E).
Qed.

Lemma or_zero_eq x : (or_zero (Some x) == x)%Q.
Proof.
  unfold or_zero. destruct (Qeq_bool x 0) eqn:E; [|reflexivity].
  apply Qeq_bool_eq in E. by rewrite E.
Qed.

Lemma py_min_spec a b : (py_min a b == Qmin b a)%Q.
Proof.
  unfold py_min. destruct (Qle_bool a b) eqn:E.
  - apply Qle_bool_iff in E. by rewrite Q.min_r.
  - apply Qle_bool_false in E. rewrite Q.min_l; [reflexivity|]. by apply Qlt_le_weak.
Qed.


Lemma calculate_progress_ext {N : Numerics} a b :
  target_amount a = target_amount b -> current_amount a = current_amount b ->
  linked_amount a = linked_amount b ->
  GoalModel.calculate_progress a = GoalModel.calculate_progress b.
Proof.
  unfold GoalModel.calculate_progress, GoalModel.total_progress.
  by intros -> -> ->.
Qed.

(** What [Goal.update_progress] leaves and what it changes. *)
Lemma update_progress_keeps {N : Numerics} now amount ty g :
  let g' := GoalModel.update_progress now amount ty g in
  user_id g' = user_id g /\ target_amount g' = target_amount g /\
  linked_account_id g' = linked_account_id g.
Proof.
  unfold GoalModel.update_progress.
  destruct (String.eqb ty "linked"); simpl;
    destruct (Qle_bool 100 _); done.
Qed.

Lemma update_progress_linked {N : Numerics} now amount g :
  let g' := GoalModel.update_progress now amount "linked" g in
  linked_amount g' = Some (fl (fl (or_zero (linked_amount g)) + fl amount)) /\
  current_amount g' = current_amount g.
Proof.
  unfold GoalModel.update_progress. simpl. destruct (Qle_bool 100 _); done.
Qed.

Lemma update_progress_manual {N : Numerics} now amount ty g :
  ty <> "linked" ->
  let g' := GoalModel.update_progress now amount ty g in
  current_amount g' = Some (fl (fl (or_zero (current_amount g)) + fl amount)) /\
  linked_amount g' = linked_amount g.
Proof.
  intros Hne. unfold GoalModel.update_progress.
  destruct (String.eqb_spec ty "linked"); [done|].
  simpl. destruct (Qle_bool 100 _); done.
Qed.

(** The status [Goal.update_progress] leaves: [completed] if the
    percentage of the object in memory reached 100, the former status
    otherwise. *)
Lemma update_progress_status {N : Numerics} now amount ty g :
  let g' := GoalModel.update_progress now amount ty g in
  status g' =
  if Qle_bool 100 (GoalModel.calculate_progress g') then "completed" else status g.
Proof.
  unfold GoalModel.update_progress.
  set (g1 := if String.eqb ty "linked" then _ else _).
  assert (Hg1 : status g1 = status g) by (subst g1; by destruct (String.eqb _ _)).
  simpl. destruct (Qle_bool 100 (GoalModel.calculate_progress g1)) eqn:E.
  - rewrite (calculate_progress_ext _ g1) by done. by rewrite E.
  - rewrite (calculate_progress_ext _ g1) by done. by rewrite E.
Qed.

(** The row committed after [Goal.update_progress]: the amount assigned
    is rounded by its column, everything else is as [update_progress]
    left it. *)
Lemma progressed_keeps {N : Numerics} now amount ty g :
  let g' := progressed now amount ty g in
  user_id g' = user_id g /\ target_amount g' = target_amount g /\
  linked_account_id g' = linked_account_id g /\
  status g' = status (GoalModel.update_progress now amount ty g) /\
  updated_at g' = now.
Proof.
  destruct (update_progress_keeps now amount ty g) as (Hu & Ht & Ha).
  unfold progressed, Repo.rounded_progress, Repo.rounded_linked, Repo.rounded_current.
  destruct (String.eqb ty "linked"); simpl; repeat split; try done;
    unfold GoalModel.update_progress; by destruct (Qle_bool 100 _).
Qed.

Lemma progressed_linked {N : Numerics} now amount g :
  let g' := progressed now amount "linked" g in
  linked_amount g' =
    Some (numeric (fl (fl (or_zero (linked_amount g)) + fl amount))) /\
  current_amount g' = current_amount g.
Proof.
  destruct (update_progress_linked now amount g) as [Hl Hc].
  change (progressed now amount "linked" g)
    with (Repo.rounded_linked (GoalModel.update_progress now amount "linked" g)).
  unfold Repo.rounded_linked.
  cbn [linked_amount current_amount GoalModel.with_linked_amount].
  by rewrite Hl, Hc.
Qed.

Lemma progressed_manual {N : Numerics} now amount ty g :
  ty <> "linked" ->
  let g' := progressed now amount ty g in
  current_amount g' =
    Some (numeric (fl (fl (or_zero (current_amount g)) + fl amount))) /\
  linked_amount g' = linked_amount g.
Proof.
  intros Hne. destruct (update_progress_manual now amount ty g Hne) as [Hc Hl].
  unfold progressed, Repo.rounded_progress.
  destruct (String.eqb_spec ty "linked"); [done|].
  unfold Repo.rounded_current.
  cbn [linked_amount current_amount GoalModel.with_current_amount].
  by rewrite Hc, Hl.
Qed.

Section Rounding.
Context {N : Numerics} {L : Lawful N}.

#[local] Instance fl_proper : Proper (Qeq ==> Qeq) fl.
Proof.
  intros x y E. apply Qle_antisym; apply fl_le; rewrite E; apply Qle_refl.
Qed.

#[local] Instance numeric_proper : Proper (Qeq ==> Qeq) numeric.
Proof.
  intros x y E. apply Qle_antisym; apply numeric_le; rewrite E; apply Qle_refl.
Qed.

Lemma fl_nonneg x : (0 <= x)%Q -> (0 <= fl x)%Q.
Proof. intros Hx. rewrite <- fl_0. by apply fl_le. Qed.

Lemma fl_or_zero x : (fl (or_zero (Some x)) == fl x)%Q.
Proof. by rewrite or_zero_eq. Qed.

(** A falsy [linked_amount] adds nothing: the total is the float sum of
    the two amounts, each read as 0 when absent. *)
Lemma total_progress_eq g :
  (GoalModel.total_progress g ==
   fl (fl (or_zero (current_amount g)) + fl (or_zero (linked_amount g))))%Q.
Proof.
  unfold GoalModel.total_progress. destruct (linked_amount g) as [l|]; simpl.
  - destruct (Qeq_bool l 0); [|reflexivity].
    rewrite fl_0, Qplus_0_r, fl_fl. reflexivity.
  - rewrite fl_0, Qplus_0_r, fl_fl. reflexivity.
Qed.

(** [calculate_progress] for a positive target. *)
Lemma calculate_progress_formula g :
  (0 < target_amount g)%Q ->
  (GoalModel.calculate_progress g ==
   Qmin 100
     (fl (fl (fl (fl (or_zero (current_amount g)) + fl (or_zero (linked_amount g)))
              / fl (target_amount g)) * 100)))%Q.
Proof.
  intros Ht. unfold GoalModel.calculate_progress.
  destruct (Qeq_bool (target_amount g) 0) eqn:E.
  - apply Qeq_bool_eq in E. rewrite E in Ht. by apply Qlt_irrefl in Ht.
  - rewrite py_min_spec. by rewrite total_progress_eq.
Qed.


(** A total that reaches the float of the target gives 100 percent. *)
Lemma percent_reached t T :
  (0 < T)%Q -> (T <= t)%Q -> (100 <= fl (fl (t / T) * 100))%Q.
Proof.
  intros HT Hle.
  assert (H1 : (1 <= fl (t / T))%Q).
  { rewrite <- fl_1. apply fl_le. apply Qle_shift_div_l; [done|].
    by rewrite Qmult_1_l. }
  rewrite <- fl_100 at 1. apply fl_le. lra.
Qed.


(** Committing more than a column holds leaves it with no less, and a
    committed amount is again a number the column holds. *)
Lemma column_value_grows c a :
  column_value c -> (0 <= a)%Q -> (c <= numeric (fl (fl c + a)))%Q.
Proof.
  unfold column_value. intros Hc Ha. rewrite <- Hc at 1.
  apply numeric_le. rewrite <- (fl_fl c) at 1. apply fl_le. lra.
Qed.

Lemma column_value_numeric x : column_value (numeric (fl x)).
Proof. apply numeric_fl. Qed.

Lemma column_value_0 : column_value 0.
Proof. unfold column_value. by rewrite fl_0, numeric_0. Qed.

Lemma column_value_proper x y : (x == y)%Q -> column_value x -> column_value y.
Proof. unfold column_value. intros E Hx. by rewrite <- E. Qed.

End Rounding.

(** ** The floats and the two decimals of [Plain] *)

Module PlainFacts.
Import Plain.
Local Open Scope Q_scope.

Lemma Qle_of_Zle a b : (a <= b)%Z -> inject_Z a <= inject_Z b.
Proof. intros H. by rewrite <- Zle_Qle. Qed.

Lemma Zle_of_Qle a b : inject_Z a <= inject_Z b -> (a <= b)%Z.
Proof. intros H. by rewrite Zle_Qle. Qed.

Lemma Qlt_of_Zlt a b : (a < b)%Z -> inject_Z a + 1 <= inject_Z b.
Proof.
  intros H. change 1 with (inject_Z 1). rewrite <- inject_Z_plus.
  apply Qle_of_Zle. lia.
Qed.

(** ** Rounding to the nearest integer *)

Lemma rne_cases x :
  (inject_Z (rne x) - x < 1 # 2 /\ x - inject_Z (rne x) < 1 # 2) \/
  ((inject_Z (rne x) - x == 1 # 2 \/ x - inject_Z (rne x) == 1 # 2) /\
   Z.even (rne x) = true).
Proof.
  unfold rne. pose proof (Qfloor_le x) as H1. pose proof (Qlt_floor x) as H2.
  rewrite inject_Z_plus in H2. change (inject_Z 1) with 1 in H2.
  set (f := Qfloor x) in *.
  destruct (Qcompare_spec (x - inject_Z f) (1 # 2)) as [E|E|E].
  - right. destruct (Z.even f) eqn:Ev.
    + split; [right; exact E|exact Ev].
    + split.
      * left. rewrite inject_Z_plus. change (inject_Z 1) with 1. lra.
      * rewrite Z.add_1_r, Z.even_succ, <- Z.negb_even, Ev. reflexivity.
  - left. lra.
  - left. rewrite inject_Z_plus. change (inject_Z 1) with 1. lra.
Qed.

Lemma rne_near x :
  inject_Z (rne x) - x <= 1 # 2 /\ x - inject_Z (rne x) <= 1 # 2.
Proof. destruct (rne_cases x) as [[H1 H2]|[[H|H] _]]; lra. Qed.

Lemma rne_tie x :
  inject_Z (rne x) - x == 1 # 2 \/ x - inject_Z (rne x) == 1 # 2 ->
  Z.even (rne x) = true.
Proof. intros H. destruct (rne_cases x) as [[H1 H2]|[_ Ev]]; [lra|exact Ev]. Qed.

Lemma even_succ_false z : Z.even z = true -> Z.even (z + 1) = true -> False.
Proof.
  intros H1 H2. rewrite Z.add_1_r, Z.even_succ, <- Z.negb_even, H1 in H2.
  discriminate.
Qed.

(** The integer nearest to [x], the even one of two, is [rne x]. *)
Lemma rne_unique x k :
  (inject_Z k - x < 1 # 2 /\ x - inject_Z k < 1 # 2) \/
  ((inject_Z k - x == 1 # 2 \/ x - inject_Z k == 1 # 2) /\ Z.even k = true) ->
  rne x = k.
Proof.
  intros Hk. destruct (rne_near x) as [N1 N2].
  pose proof (rne_tie x) as Ht.
  destruct (Z.lt_trichotomy (rne x) k) as [Hlt|[Heq|Hgt]]; [|exact Heq|]; exfalso.
  - pose proof (Qlt_of_Zlt _ _ Hlt) as Hq.
    assert (Hx : x - inject_Z (rne x) == 1 # 2)
      by (destruct Hk as [[K1 K2]|[[K|K] _]]; lra).
    assert (Hkx : inject_Z k - x == 1 # 2)
      by (destruct Hk as [[K1 K2]|[[K|K] _]]; lra).
    assert (Hke : Z.even k = true)
      by (destruct Hk as [[K1 K2]|[_ Ev]]; [lra|exact Ev]).
    assert (k = rne x + 1)%Z.
    { apply Z.le_antisymm; [|lia]. apply Zle_of_Qle.
      rewrite inject_Z_plus. change (inject_Z 1) with 1. lra. }
    subst k. exact (even_succ_false _ (Ht (or_intror Hx)) Hke).
  - pose proof (Qlt_of_Zlt _ _ Hgt) as Hq.
    assert (Hx : inject_Z (rne x) - x == 1 # 2)
      by (destruct Hk as [[K1 K2]|[[K|K] _]]; lra).
    assert (Hkx : x - inject_Z k == 1 # 2)
      by (destruct Hk as [[K1 K2]|[[K|K] _]]; lra).
    assert (Hke : Z.even k = true)
      by (destruct Hk as [[K1 K2]|[_ Ev]]; [lra|exact Ev]).
    assert (rne x = k + 1)%Z.
    { apply Z.le_antisymm; [|lia]. apply Zle_of_Qle.
      rewrite inject_Z_plus. change (inject_Z 1) with 1. lra. }
    apply (even_succ_false k Hke). rewrite <- H. exact (Ht (or_introl Hx)).
Qed.

Lemma rne_Z k : rne (inject_Z k) = k.
Proof. apply rne_unique. left. lra. Qed.

Lemma rne_proper x y : x == y -> rne x = rne y.
Proof.
  intros E. apply rne_unique.
  destruct (rne_cases y) as [[H1 H2]|[[H|H] Ev]].
  - left. lra.
  - right. split; [left; lra|exact Ev].
  - right. split; [right; lra|exact Ev].
Qed.

Lemma rne_mono x y : x <= y -> (rne x <= rne y)%Z.
Proof.
  intros Hle. destruct (Z.le_gt_cases (rne x) (rne y)) as [H|H]; [exact H|exfalso].
  pose proof (Qlt_of_Zlt _ _ H) as Hq.
  destruct (rne_near x) as [X1 X2]. destruct (rne_near y) as [Y1 Y2].
  assert (Hx : inject_Z (rne x) - x == 1 # 2) by lra.
  assert (Hy : y - inject_Z (rne y) == 1 # 2) by lra.
  assert (rne x = rne y + 1)%Z.
  { apply Z.le_antisymm; [|lia]. apply Zle_of_Qle.
    rewrite inject_Z_plus. change (inject_Z 1) with 1. lra. }
  apply (even_succ_false (rne y)); [apply rne_tie; by right|].
  rewrite <- H0. apply rne_tie. by left.
Qed.


(** ** Powers of two *)

Lemma pow2_pos e : 0 < 2 ^ e.
Proof. by apply Qpower_0_lt. Qed.

Lemma pow2_succ e : 2 ^ (e + 1) == 2 * 2 ^ e.
Proof. rewrite Qpower_plus by discriminate. rewrite Qpower_1_r. lra. Qed.

Lemma pow2_le e e' : (e <= e')%Z -> 2 ^ e <= 2 ^ e'.
Proof. intros H. apply Qpower_le_compat_l; [exact H|lra]. Qed.

Lemma pow2_lt_inv e e' : 2 ^ e < 2 ^ e' -> (e < e')%Z.
Proof. intros H. apply (Qpower_lt_compat_l_inv 2); [exact H|lra]. Qed.

Lemma pow2_Z n : (0 <= n)%Z -> 2 ^ n == inject_Z (2 ^ n).
Proof. intros H. rewrite Zpower_Qpower by exact H. reflexivity. Qed.

Lemma pow2_split e k : 2 ^ e == 2 ^ k * 2 ^ (e - k).
Proof.
  rewrite <- Qpower_plus by discriminate.
  replace (k + (e - k))%Z with e by lia. reflexivity.
Qed.

(** ** The binary exponent *)

Lemma ilog2_spec x : 0 < x -> 2 ^ ilog2 x <= x /\ x < 2 ^ (ilog2 x + 1).
Proof.
  intros Hx. destruct x as [n d]. unfold ilog2. cbn [Qnum Qden].
  assert (Hn : (0 < n)%Z).
  { unfold Qlt in Hx. simpl in Hx. lia. }
  set (a := Z.log2 n). set (b := Z.log2 (Z.pos d)).
  destruct (Z.log2_spec n Hn) as [A1 A2]. fold a in A1, A2.
  destruct (Z.log2_spec (Z.pos d) (Pos2Z.is_pos d)) as [B1 B2]. fold b in B1, B2.
  assert (Ha : (0 <= a)%Z) by apply Z.log2_nonneg.
  assert (Hb : (0 <= b)%Z) by apply Z.log2_nonneg.
  assert (Hnd : n # d == inject_Z n / inject_Z (Z.pos d)) by apply Qmake_Qdiv.
  assert (Hd : 0 < inject_Z (Z.pos d)) by (rewrite <- (Zlt_Qlt 0); lia).
  assert (QA1 : 2 ^ a <= inject_Z n).
  { rewrite pow2_Z by exact Ha. by apply Qle_of_Zle. }
  assert (QA2 : inject_Z n < 2 ^ (a + 1)).
  { rewrite pow2_Z by lia. rewrite <- Zlt_Qlt. exact A2. }
  assert (QB1 : 2 ^ b <= inject_Z (Z.pos d)).
  { rewrite pow2_Z by exact Hb. by apply Qle_of_Zle. }
  assert (QB2 : inject_Z (Z.pos d) < 2 ^ (b + 1)).
  { rewrite pow2_Z by lia. rewrite <- Zlt_Qlt. exact B2. }
  assert (Upper : n # d < 2 ^ (a - b + 1)).
  { rewrite Hnd. apply Qlt_shift_div_r; [exact Hd|].
    replace (a - b + 1)%Z with (a + 1 - b)%Z by lia.
    rewrite Qpower_minus by discriminate.
    pose proof (pow2_pos b) as Pb. pose proof (pow2_pos (a + 1)) as Pa.
    set (q := 2 ^ (a + 1) / 2 ^ b).
    assert (Hq : q * 2 ^ b == 2 ^ (a + 1)).
    { unfold q. field. intros E. rewrite E in Pb. by apply Qlt_irrefl in Pb. }
    assert (Hq0 : 0 < q).
    { unfold q. apply Qlt_shift_div_l; [exact Pb|]. lra. }
    apply Qlt_le_trans with (q * 2 ^ b); [lra|].
    apply Qmult_le_l; [exact Hq0|exact QB1]. }
  assert (Lower : 2 ^ (a - b - 1) <= n # d).
  { rewrite Hnd. apply Qle_shift_div_l; [exact Hd|].
    replace (a - b - 1)%Z with (a - (b + 1))%Z by lia.
    rewrite Qpower_minus by discriminate.
    pose proof (pow2_pos (b + 1)) as Pb. pose proof (pow2_pos a) as Pa.
    set (q := 2 ^ a / 2 ^ (b + 1)).
    assert (Hq : q * 2 ^ (b + 1) == 2 ^ a).
    { unfold q. field. intros E. rewrite E in Pb. by apply Qlt_irrefl in Pb. }
    assert (Hq0 : 0 < q).
    { unfold q. apply Qlt_shift_div_l; [exact Pb|]. lra. }
    apply Qle_trans with (q * 2 ^ (b + 1)); [|lra].
    apply Qmult_le_l; [exact Hq0|]. by apply Qlt_le_weak. }
  destruct (Qle_bool (2 ^ (a - b)) (n # d)) eqn:E.
  - apply Qle_bool_iff in E. split; [exact E|exact Upper].
  - split; [exact Lower|].
    replace (a - b - 1 + 1)%Z with (a - b)%Z by lia.
    apply Qnot_le_lt. intros H. apply Qle_bool_iff in H. congruence.
Qed.

Lemma ilog2_unique x e : 2 ^ e <= x -> x < 2 ^ (e + 1) -> ilog2 x = e.
Proof.
  intros H1 H2.
  assert (Hx : 0 < x) by (pose proof (pow2_pos e); lra).
  destruct (ilog2_spec x Hx) as [S1 S2].
  assert (ilog2 x < e + 1)%Z by (apply pow2_lt_inv; lra).
  assert (e < ilog2 x + 1)%Z by (apply pow2_lt_inv; lra).
  lia.
Qed.

Lemma ilog2_proper x y : 0 < x -> x == y -> ilog2 x = ilog2 y.
Proof.
  intros Hx E. destruct (ilog2_spec x Hx) as [S1 S2].
  symmetry. apply ilog2_unique; lra.
Qed.


(** ** Numbers with 53 significant bits *)

Lemma ulp_scale e :
  inject_Z (2 ^ 52) * 2 ^ (e - 52) == 2 ^ e /\
  inject_Z (2 ^ 53) * 2 ^ (e - 52) == 2 ^ (e + 1).
Proof.
  rewrite <- !pow2_Z by lia. split.
  - symmetry. apply pow2_split.
  - rewrite (pow2_split (e + 1) 53).
    replace (e + 1 - 53)%Z with (e - 52)%Z by lia. reflexivity.
Qed.

Lemma scaled_range x :
  0 < x ->
  inject_Z (2 ^ 52) <= x / 2 ^ (ilog2 x - 52) /\
  x / 2 ^ (ilog2 x - 52) <= inject_Z (2 ^ 53).
Proof.
  intros Hx. destruct (ilog2_spec x Hx) as [S1 S2].
  destruct (ulp_scale (ilog2 x)) as [U1 U2].
  pose proof (pow2_pos (ilog2 x - 52)) as Pu.
  split.
  - apply Qle_shift_div_l; [exact Pu|]. lra.
  - apply Qle_shift_div_r; [exact Pu|]. lra.
Qed.

Lemma scaled_back x e : x / 2 ^ e * 2 ^ e == x.
Proof.
  pose proof (pow2_pos e) as Pu. field.
  intros E. rewrite E in Pu. by apply Qlt_irrefl in Pu.
Qed.

Lemma round53_m x :
  0 < x -> (2 ^ 52 <= rne (x / 2 ^ (ilog2 x - 52)) <= 2 ^ 53)%Z.
Proof.
  intros Hx. destruct (scaled_range x Hx) as [S1 S2]. split.
  - pose proof (rne_mono _ _ S1) as H. by rewrite rne_Z in H.
  - pose proof (rne_mono _ _ S2) as H. by rewrite rne_Z in H.
Qed.

Lemma round53_range x :
  0 < x -> 2 ^ ilog2 x <= round53 x /\ round53 x <= 2 ^ (ilog2 x + 1).
Proof.
  intros Hx. destruct (round53_m x Hx) as [M1 M2].
  destruct (ulp_scale (ilog2 x)) as [U1 U2].
  pose proof (pow2_pos (ilog2 x - 52)) as Pu.
  unfold round53. cbv zeta. split.
  - rewrite <- U1. apply Qmult_le_compat_r; [by apply Qle_of_Zle|lra].
  - rewrite <- U2. apply Qmult_le_compat_r; [by apply Qle_of_Zle|lra].
Qed.

Lemma round53_pos x : 0 < x -> 0 < round53 x.
Proof.
  intros Hx. destruct (round53_range x Hx) as [R1 _].
  pose proof (pow2_pos (ilog2 x)). lra.
Qed.


Lemma is_float_bounds y m e :
  (2 ^ 52 <= m < 2 ^ 53)%Z -> y == inject_Z m * 2 ^ (e - 52) ->
  2 ^ e <= y /\ y < 2 ^ (e + 1).
Proof.
  intros [M1 M2] Hy. destruct (ulp_scale e) as [U1 U2].
  pose proof (pow2_pos (e - 52)) as Pu. rewrite Hy, <- U1, <- U2. split.
  - apply Qmult_le_compat_r; [by apply Qle_of_Zle|lra].
  - apply Qmult_lt_compat_r; [exact Pu|]. by rewrite <- Zlt_Qlt.
Qed.


Lemma round53_is_float x : 0 < x -> is_float (round53 x).
Proof.
  intros Hx. destruct (round53_m x Hx) as [M1 M2].
  destruct (Z.eq_dec (rne (x / 2 ^ (ilog2 x - 52))) (2 ^ 53)%Z) as [E|E].
  - exists (2 ^ 52)%Z, (ilog2 x + 1)%Z. split; [lia|].
    unfold round53. cbv zeta. rewrite E.
    destruct (ulp_scale (ilog2 x)) as [_ ->].
    destruct (ulp_scale (ilog2 x + 1)) as [-> _]. reflexivity.
  - exists (rne (x / 2 ^ (ilog2 x - 52))), (ilog2 x). split; [lia|reflexivity].
Qed.

(** A number with 53 significant bits is rounded to itself. *)
Lemma round53_float y : is_float y -> round53 y == y.
Proof.
  intros (m & e & Hm & Hy). destruct (is_float_bounds y m e Hm Hy) as [B1 B2].
  unfold round53. cbv zeta. rewrite (ilog2_unique y e B1 B2).
  assert (Hs : y / 2 ^ (e - 52) == inject_Z m).
  { pose proof (pow2_pos (e - 52)) as Pu. rewrite Hy. field.
    intros E. rewrite E in Pu. by apply Qlt_irrefl in Pu. }
  rewrite (rne_proper _ _ Hs), rne_Z. by rewrite Hy.
Qed.

Lemma round53_proper x y : 0 < x -> x == y -> round53 x == round53 y.
Proof.
  intros Hx E. unfold round53. cbv zeta. rewrite <- (ilog2_proper x y Hx E).
  generalize (2 ^ (ilog2 x - 52)). intros u.
  rewrite (rne_proper (x / u) (y / u)) by (by rewrite E).
  reflexivity.
Qed.




(** ** binary64 *)

Lemma binary64_cases x :
  (x == 0 /\ binary64 x == 0) \/
  (0 < x /\ binary64 x == round53 x) \/
  (x < 0 /\ binary64 x == - round53 (- x)).
Proof.
  unfold binary64. destruct (Qcompare_spec x 0) as [E|E|E].
  - left. split; [exact E|reflexivity].
  - right. right. split; [exact E|apply Qred_correct].
  - right. left. split; [exact E|apply Qred_correct].
Qed.


Lemma binary64_proper x y : x == y -> binary64 x == binary64 y.
Proof.
  intros E.
  destruct (binary64_cases x) as [[Hx Ex]|[[Hx Ex]|[Hx Ex]]];
    destruct (binary64_cases y) as [[Hy Ey]|[[Hy Ey]|[Hy Ey]]]; try lra.
  - rewrite Ex, Ey. apply round53_proper; [exact Hx|exact E].
  - rewrite Ex, Ey. apply Qopp_comp. apply round53_proper; [lra|by rewrite E].
Qed.



Lemma binary64_idem x : binary64 (binary64 x) == binary64 x.
Proof.
  destruct (binary64_cases x) as [[Hx E]|[[Hx E]|[Hx E]]].
  - rewrite (binary64_proper _ _ E). rewrite E. reflexivity.
  - rewrite (binary64_proper _ _ E), E.
    pose proof (round53_pos x Hx) as Hp.
    destruct (binary64_cases (round53 x)) as [[H _]|[[_ ->]|[H _]]]; try lra.
    apply round53_float. by apply round53_is_float.
  - rewrite (binary64_proper _ _ E), E.
    assert (Hx' : 0 < - x) by lra. pose proof (round53_pos _ Hx') as Hp.
    destruct (binary64_cases (- round53 (- x))) as [[H _]|[[H _]|[_ ->]]]; try lra.
    apply Qopp_comp.
    rewrite (round53_proper (- - round53 (- x)) (round53 (- x))) by lra.
    apply round53_float. by apply round53_is_float.
Qed.


(** ** Two decimals *)

Lemma two_decimals_eq x : two_decimals x == inject_Z (rne (x * 100)) / 100.
Proof. apply Qred_correct. Qed.



(** ** Amounts of two decimals *)

(** The float of a number below [2 ^ E] is within [2 ^ (E - 54)] of it. *)
Lemma round53_err x E :
  0 < x -> x < 2 ^ E ->
  round53 x - x <= 2 ^ (E - 54) /\ x - round53 x <= 2 ^ (E - 54).
Proof.
  intros Hx HE. destruct (ilog2_spec x Hx) as [S1 S2].
  assert (He : (ilog2 x < E)%Z) by (apply pow2_lt_inv; lra).
  pose proof (pow2_succ (ilog2 x - 53)) as Hu.
  replace (ilog2 x - 53 + 1)%Z with (ilog2 x - 52)%Z in Hu by lia.
  pose proof (pow2_le (ilog2 x - 53) (E - 54) ltac:(lia)) as Hle.
  pose proof (pow2_pos (ilog2 x - 52)) as Pu.
  pose proof (scaled_back x (ilog2 x - 52)) as Hs.
  destruct (rne_near (x / 2 ^ (ilog2 x - 52))) as [N1 N2].
  apply (Qmult_le_r _ _ _ Pu) in N1, N2.
  unfold round53. cbv zeta. lra.
Qed.

Lemma binary64_err x E :
  0 <= x -> x < 2 ^ E ->
  binary64 x - x <= 2 ^ (E - 54) /\ x - binary64 x <= 2 ^ (E - 54).
Proof.
  intros Hx HE. pose proof (pow2_pos (E - 54)) as Pe.
  destruct (binary64_cases x) as [[H E0]|[[H E0]|[H _]]]; try lra.
  rewrite E0. by apply round53_err.
Qed.

Lemma binary64_nonneg x : 0 <= x -> 0 <= binary64 x.
Proof.
  intros Hx. destruct (binary64_cases x) as [[H E0]|[[H E0]|[H _]]]; try lra.
  pose proof (round53_pos x H). lra.
Qed.

Lemma is_cents_rne x k :
  inject_Z k - x * 100 < 1 # 2 -> x * 100 - inject_Z k < 1 # 2 ->
  two_decimals x == inject_Z k / 100.
Proof.
  intros H1 H2. rewrite two_decimals_eq.
  rewrite (rne_unique (x * 100) k) by (left; lra). reflexivity.
Qed.

(** A number of two decimals within the range of a [Numeric(10, 2)]
    column is read back from its float as it was. *)
Lemma cents_stored c :
  is_cents c -> 0 <= c -> c <= 100000000 -> two_decimals (binary64 c) == c.
Proof.
  intros [k Hk] H0 Hmax.
  assert (P27 : 2 ^ 27 == 134217728) by (vm_compute; reflexivity).
  assert (Q27 : 2 ^ (27 - 54) == 1 # 134217728) by (vm_compute; reflexivity).
  destruct (binary64_err c 27) as [E1 E2]; [lra|lra|].
  assert (Hkc : inject_Z k == c * 100) by (rewrite Hk; field).
  rewrite (is_cents_rne (binary64 c) k) by lra. by rewrite Hk.
Qed.

(** The float sum of two such numbers is stored as their sum. *)
Lemma cents_sum_stored c a :
  is_cents c -> is_cents a -> 0 <= c -> 0 <= a -> c + a <= 100000000 ->
  two_decimals (binary64 (binary64 c + binary64 (binary64 a))) == c + a.
Proof.
  intros [kc Hc] [ka Ha] H0c H0a Hmax.
  assert (P27 : 2 ^ 27 == 134217728) by (vm_compute; reflexivity).
  assert (Q27 : 2 ^ (27 - 54) == 1 # 134217728) by (vm_compute; reflexivity).
  assert (P28 : 2 ^ 28 == 268435456) by (vm_compute; reflexivity).
  assert (Q28 : 2 ^ (28 - 54) == 1 # 67108864) by (vm_compute; reflexivity).
  destruct (binary64_err c 27) as [C1 C2]; [lra|lra|].
  destruct (binary64_err a 27) as [A1 A2]; [lra|lra|].
  pose proof (binary64_nonneg c H0c) as Nc.
  pose proof (binary64_nonneg a H0a) as Na.
  pose proof (binary64_idem a) as Ia.
  set (s := binary64 c + binary64 (binary64 a)).
  assert (Es : s == binary64 c + binary64 (binary64 a)) by reflexivity.
  clearbody s.
  destruct (binary64_err s 28) as [S1 S2]; [lra|lra|].
  assert (Hkc : inject_Z (kc + ka) == (c + a) * 100).
  { rewrite inject_Z_plus, Hc, Ha. field. }
  rewrite (is_cents_rne (binary64 s) (kc + ka)) by lra.
  rewrite inject_Z_plus, Hc, Ha. field.
Qed.

End PlainFacts.


(** ** The reservation ledger *)

Lemma Qgtb_true a b : Qgtb a b = true <-> (b < a)%Q.
Proof. unfold Qgtb. rewrite negb_true_iff. apply Qle_bool_false. Qed.

Lemma Qgtb_false a b : Qgtb a b = false <-> (a <= b)%Q.
Proof. unfold Qgtb. rewrite negb_false_iff. apply Qle_bool_iff. Qed.

(** The goals the ledger sums. *)
Lemma reserved_goals_spec uid acct excl db i g :
  (i, g) ∈ Facade.reserved_goals uid acct excl db <->
  goals db !! i = Some g /\ user_id g = uid /\
  linked_account_id g = Some acct /\ excl <> Some i.
Proof.
  unfold Facade.reserved_goals, Repo.find_by_user_account.
  rewrite !list_elem_of_filter, elem_of_map_to_list. simpl.
  destruct excl as [e|].
  - rewrite negb_true_iff, Z.eqb_neq. split.
    + intros (Hne & (Hu & Ha) & Hl). repeat split; try done. congruence.
    + intros (Hl & Hu & Ha & Hne). repeat split; try done. congruence.
  - split.
    + intros (_ & (Hu & Ha) & Hl). done.
    + intros (Hl & Hu & Ha & _). done.
Qed.

(** The ledger check on an account the lookup returns. *)
Lemma ledger_run {N : Numerics} uid acct amount excl db account :
  Repo.get_by_id_and_user_id acct uid db = Some account ->
  Facade._validate_linked_amount_total uid acct amount excl db =
  (if Qgtb (fl (fl (Facade.total_reserved uid acct excl db) + fl amount))
           (fl (or_zero (available_balance account)))
   then Raise (GoalValidationError
                 (MsgReserve (fl (or_zero (available_balance account)))
                             (Facade.total_reserved uid acct excl db)))
   else Ok tt,
   db, [LedgerCheck uid acct amount excl]).
Proof.
  intros Hacc. unfold Facade._validate_linked_amount_total, bind, tell, get_db.
  simpl. rewrite Hacc. unfold raise_if. by destruct (Qgtb _ _).
Qed.

(** The check passes exactly when the ledger admits the amount. *)
Lemma ledger_ok_admits {N : Numerics} uid acct amount excl db :
  outcome (Facade._validate_linked_amount_total uid acct amount excl db) = Ok tt <->
  ledger_admits uid acct amount excl db.
Proof.
  unfold ledger_admits. split.
  - destruct (Repo.get_by_id_and_user_id acct uid db) as [account|] eqn:Hacc.
    + rewrite (ledger_run _ _ _ _ _ _ Hacc). cbn [outcome fst].
      destruct (Qgtb _ _) eqn:E; [done|]. intros _. exists account.
      split; [done|]. by apply Qgtb_false.
    + unfold Facade._validate_linked_amount_total, bind, tell, get_db, outcome.
      simpl. by rewrite Hacc.
  - intros (account & Hacc & Hle). rewrite (ledger_run _ _ _ _ _ _ Hacc).
    cbn [outcome fst]. apply Qgtb_false in Hle. by rewrite Hle.
Qed.

Lemma NoDup_reserved_goals uid acct excl db :
  NoDup (Facade.reserved_goals uid acct excl db).
Proof.
  unfold Facade.reserved_goals, Repo.find_by_user_account.
  apply NoDup_filter, NoDup_filter, NoDup_map_to_list.
Qed.

(** C1, amended.  For a user and an account of theirs, the ledger check
    lists each goal of the user on that account other than the excluded
    one once, adds up from 0, in floating point, the floats of their
    [linked_amount]s, a NULL counting as 0, adds the float of the
    proposed amount, and raises [GoalValidationError] carrying the float
    of the available balance and the reserved total exactly when this
    sum exceeds the float of the available balance; it returns
    otherwise, and it writes nothing.  With lawful numerics an amount up
    to the available balance is admitted when no other goal reserves on
    the account.  On a balance of 500, a first goal reserving 500 is
    created and a second goal reserving 100 on the same account is
    rejected. *)
Theorem reservation_ledger_check_exact :
  (forall (N : Numerics) uid acct amount excl db account,
      Repo.get_by_id_and_user_id acct uid db = Some account ->
      exists l,
        (forall i g, (i, g) ∈ l <->
                     goals db !! i = Some g /\ user_id g = uid /\
                     linked_account_id g = Some acct /\ excl <> Some i) /\
        NoDup l /\
        let reserved :=
          foldl (fun total x => fl (total + x)) 0%Q
                (map (fun o : goal_obj => fl (or_zero (linked_amount o.2))) l) in
        let needed := fl (fl reserved + fl amount) in
        let available := fl (or_zero (available_balance account)) in
        let run := Facade._validate_linked_amount_total uid acct amount excl db in
        (outcome run = Raise (GoalValidationError (MsgReserve available reserved)) <->
         (available < needed)%Q) /\
        (outcome run = Ok tt <-> (needed <= available)%Q) /\
        final_db run = db /\
        (Lawful N -> l = [] ->
         (amount <= or_zero (available_balance account))%Q -> outcome run = Ok tt)) /\
  (let first := Facade.create_goal Plain.builtins 1 goal_a bank500 in
   let second := Facade.create_goal Plain.builtins 1 goal_b (final_db first) in
   (exists d, outcome first = Ok d /\ linked_account_id (d_goal d) = Some 7 /\
              linked_amount (d_goal d) = Some 500%Q /\
              goals (final_db first) !! d_id d = Some (d_goal d)) /\
   outcome second = Raise (GoalValidationError (MsgReserve 500 500)) /\
   final_db second = final_db first).
Proof.
  split.
  - intros N uid acct amount excl db account Hacc.
    exists (Facade.reserved_goals uid acct excl db).
    split; [intros i g; apply reserved_goals_spec|].
    split; [apply NoDup_reserved_goals|].
    intros reserved needed available run.
    subst run. rewrite (ledger_run _ _ _ _ _ _ Hacc).
    change (Facade.total_reserved uid acct excl db) with reserved.
    fold needed available. cbn [outcome final_db fst snd].
    assert (Hfull : Lawful N -> Facade.reserved_goals uid acct excl db = [] ->
                    (amount <= or_zero (available_balance account))%Q ->
                    (needed <= available)%Q).
    { intros L Hnil Hle. subst needed available reserved.
      unfold Facade.total_reserved. rewrite Hnil. cbn [map foldl].
      apply Qle_trans with (fl (fl amount)).
      - apply fl_le. pose proof (@fl_0 N L). lra.
      - rewrite fl_fl. by apply fl_le. }
    destruct (Qgtb needed available) eqn:E.
    + apply Qgtb_true in E. repeat split; try done.
      * intros Hle. exfalso. exact (Qlt_not_le _ _ E Hle).
      * intros L Hnil Hle. exfalso.
        exact (Qlt_not_le _ _ E (Hfull L Hnil Hle)).
    + apply Qgtb_false in E. repeat split; try done.
      intros Hlt. exfalso. exact (Qlt_not_le _ _ Hlt E).
  - intros first second. split; [|split].
    + eexists. split; [vm_compute; reflexivity|].
      split; [reflexivity|]. split; [reflexivity|]. vm_compute. reflexivity.
    + vm_compute. reflexivity.
    + vm_compute. reflexivity.
Qed.

Lemma reservation_ledger_check_exact_witness :
  Repo.get_by_id_and_user_id 7 1 bank_a = Some acc500 /\
  exists l,
    NoDup l /\
    let reserved :=
      foldl (fun total x => fl (total + x)) 0%Q
            (map (fun o : goal_obj => fl (or_zero (linked_amount o.2))) l) in
    (outcome (Facade._validate_linked_amount_total 1 7 100 None bank_a) =
       Raise (GoalValidationError (MsgReserve (fl 500) reserved)) <->
     (fl 500 < fl (fl reserved + fl 100))%Q).
Proof.
  assert (H : Repo.get_by_id_and_user_id 7 1 bank_a = Some acc500)
    by (vm_compute; reflexivity).
  split; [exact H|].
  destruct (proj1 reservation_ledger_check_exact Plain.numerics
              1 7 100%Q None bank_a acc500 H)
    as (l & _ & Hn & Hr & _).
  exists l. split; [exact Hn|exact Hr].
Defined.

(** C1 as stated fails.  Goal 1 reserves 0.16 of account 7, whose
    available balance is 0.41.  Reserving 0.25 more, a number that is a
    float, fills the balance exactly: 0.16 + 0.25 = 0.41.  The check
    raises, since the float of 0.16 plus 0.25 is 0.41000000000000003 and
    the float of 0.41 lies below it. *)
Lemma exact_balance_rejected :
  let reserved :=
    foldr Qplus 0%Q (map (fun o : goal_obj => or_zero (linked_amount o.2))
                         (Facade.reserved_goals 1 7 None cents_db)) in
  Repo.get_by_id_and_user_id 7 1 cents_db = Some acc041 /\
  (reserved + (25 # 100) == or_zero (available_balance acc041))%Q /\
  Plain.binary64 (25 # 100) = (1 # 4)%Q /\
  (exists m, outcome (Facade._validate_linked_amount_total 1 7 (25 # 100) None cents_db)
             = Raise (GoalValidationError m)) /\
  (exists m, outcome (Facade.create_goal Plain.builtins 1 goal_quarter cents_db)
             = Raise (GoalValidationError m)).
Proof.
  intros reserved. split; [vm_compute; reflexivity|].
  split; [vm_compute; reflexivity|]. split; [vm_compute; reflexivity|].
  split; eexists; vm_compute; reflexivity.
Qed.

(** Goals reserving 0.10 and 0.20 on a balance of 0.30 leave nothing to
    reserve, not even 0: their floats add up to 0.30000000000000004. *)
Example dimes_exceed_their_sum :
  exists m,
    outcome (Facade._validate_linked_amount_total 1 7 0 None dimes_db) =
    Raise (GoalValidationError m).
Proof. eexists. vm_compute. reflexivity. Qed.

(** ** Linked fields of a goal *)

Lemma is_Some_option_map {A B} (f : A -> B) (x : option A) :
  is_Some (option_map f x) <-> is_Some x.
Proof. destruct x; split; intros [y Hy]; by eauto. Qed.

(** A converted linked field is present exactly when the payload gave it. *)
Lemma convert_linked_given {N : Numerics} B a m db la lm :
  outcome (Facade._validate_and_convert_linked_fields B a m db) = Ok (la, lm) ->
  (Facade.is_given a = true <-> is_Some la) /\
  (Facade.is_given m = true <-> is_Some lm).
Proof.
  unfold Facade._validate_and_convert_linked_fields, bind, outcome, ret, raise.
  destruct (Facade.is_given a); [destruct (Facade.to_int B a)|];
    (destruct (Facade.is_given m); [destruct (Facade.to_float B m)|]); simpl;
    intros H; simplify_eq; split; split; (done || by intros []|| eauto).
Qed.

Lemma column_of_int la : account_column (Facade.pyval_of_int la) = la.
Proof. by destruct la. Qed.
Lemma column_of_float lm : amount_column (Facade.pyval_of_float lm) = lm.
Proof. by destruct lm. Qed.

Lemma columns_have_linked :
  bool_decide ("linked_account_id" ∈ Repo.columns) = true /\
  bool_decide ("linked_amount" ∈ Repo.columns) = true.
Proof. split; vm_compute; reflexivity. Qed.

(** What the commit of an update rounds and what it leaves. *)
Lemma rounded_columns_keeps {N : Numerics} u g :
  let g' := Repo.rounded_columns u g in
  user_id g' = user_id g /\ linked_account_id g' = linked_account_id g /\
  current_amount g' = current_amount g /\ status g' = status g /\
  linked_amount g' =
    (if bool_decide (is_Some (u !! "linked_amount"))
     then option_map numeric (linked_amount g) else linked_amount g).
Proof.
  unfold Repo.rounded_columns, Repo.rounded_target, Repo.rounded_linked.
  destruct (bool_decide (is_Some (u !! "target_amount")));
    destruct (bool_decide (is_Some (u !! "linked_amount"))); done.
Qed.

#[local] Arguments Repo.rounded_columns : simpl never.

(** The linked columns after a successful update. *)
Lemma update_goal_linked {N : Numerics} B gid uid updates updates2 db l g g1 now :
  linked_part B gid uid updates updates2 db l ->
  Repo.set_columns Repo.columns updates2 g = Some g1 ->
  let g2 := Repo.rounded_columns updates2 (GoalModel.with_updated_at now g1) in
  if bool_decide (is_Some (updates !! "linked_account_id")) ||
     bool_decide (is_Some (updates !! "linked_amount"))
  then exists la lm,
      outcome (Facade._validate_and_convert_linked_fields B
                 (Facade.get "linked_account_id" updates)
                 (Facade.get "linked_amount" updates) db) = Ok (la, lm) /\
      linked_account_id g2 = la /\ linked_amount g2 = option_map numeric lm /\
      outcome (Facade.check_linked uid la lm (Some gid) db) = Ok tt /\
      l = checks (Facade.check_linked uid la lm (Some gid) db)
  else linked_account_id g2 = linked_account_id g /\
       linked_amount g2 = linked_amount g /\ l = [].
Proof.
  unfold linked_part. intros Hp Hsc. cbv zeta.
  destruct (set_columns_linked _ _ _ _ Hsc) as [Ha Hm].
  destruct columns_have_linked as [Ca Cm]. rewrite Ca in Ha. rewrite Cm in Hm.
  destruct (rounded_columns_keeps updates2 (GoalModel.with_updated_at now g1))
    as (_ & Ha2 & _ & _ & Hm2).
  simpl in Ha2, Hm2. rewrite Ha2, Hm2.
  destruct (_ || _).
  - destruct Hp as (la & lm & Hc & Hla & Hlm & Hk & ->).
    exists la, lm. rewrite Hla in Ha. rewrite Hlm in Hm.
    rewrite column_of_int in Ha. rewrite column_of_float in Hm.
    rewrite Hlm, Ha, Hm. done.
  - destruct Hp as (Hla & Hlm & ->). rewrite Hla in Ha. rewrite Hlm in Hm.
    rewrite Hlm, Ha, Hm. done.
Qed.

Lemma db_linked_consistent_stored i g db :
  db_linked_consistent db -> linked_consistent g ->
  db_linked_consistent (stored i g db).
Proof.
  intros Hdb Hg j g'. unfold stored, set_goals. simpl.
  destruct (decide (i = j)) as [->|Hne].
  - rewrite lookup_insert_eq. by intros [= <-].
  - rewrite lookup_insert_ne by done. apply Hdb.
Qed.

Lemma db_linked_consistent_inserted g db :
  db_linked_consistent db -> linked_consistent g ->
  db_linked_consistent (inserted g db).
Proof.
  intros Hdb Hg j g'. unfold inserted. simpl.
  destruct (decide (next_goal_id db = j)) as [<-|Hne].
  - rewrite lookup_insert_eq. by intros [= <-].
  - rewrite lookup_insert_ne by done. apply Hdb.
Qed.

(** C2, as the code has it.  Starting from goals that all have an account
    whenever they have a reserved amount: a create or an update whose
    payload gives a [linked_account_id] whenever it gives a
    [linked_amount] keeps it so, and so does every progress contribution.
    [create_goal] stores the two fields as converted from the payload:
    the created goal has an account for its amount exactly when the
    payload has. *)
Theorem linked_fields_follow_payload {N : Numerics} :
  forall B uid gid kwargs amount ty db,
    db_linked_consistent db ->
    (payload_linked_consistent kwargs ->
     db_linked_consistent (final_db (Facade.create_goal B uid kwargs db))) /\
    (forall d, outcome (Facade.create_goal B uid kwargs db) = Ok d ->
               (linked_consistent (d_goal d) <-> payload_linked_consistent kwargs)) /\
    (payload_linked_consistent kwargs ->
     db_linked_consistent (final_db (Facade.update_goal B gid uid kwargs db))) /\
    db_linked_consistent (final_db (Facade.update_goal_progress gid uid amount ty db)).
Proof.
  intros B uid gid kwargs amount ty db Hdb.
  assert (Hcreate : forall la lm,
    outcome (Facade._validate_and_convert_linked_fields B
               (Facade.get "linked_account_id" kwargs)
               (Facade.get "linked_amount" kwargs) db) = Ok (la, lm) ->
    (is_Some lm -> is_Some la) <-> payload_linked_consistent kwargs).
  { intros la lm Hc. destruct (convert_linked_given _ _ _ _ _ _ Hc) as [Ha Hm].
    unfold payload_linked_consistent. rewrite Ha, Hm. done. }
  split; [|split; [|split]].
  - intros Hp.
    destruct (create_goal_cases B uid kwargs db)
      as [(e & l & -> & _)|(t & tg & ds & dl & la & lm & _ & Hc & _ & _ & ->)];
      [done|].
    cbn [final_db fst snd]. apply db_linked_consistent_inserted; [done|].
    unfold linked_consistent. simpl. rewrite is_Some_option_map.
    by apply (Hcreate la lm Hc).
  - intros d.
    destruct (create_goal_cases B uid kwargs db)
      as [(e & l & -> & _)|(t & tg & ds & dl & la & lm & _ & Hc & _ & _ & ->)];
      [done|].
    cbn [outcome fst]. intros [= <-]. unfold linked_consistent. simpl.
    rewrite is_Some_option_map. by apply Hcreate.
  - intros Hp.
    destruct (update_goal_cases B gid uid kwargs db)
      as [(e & l & -> & _)|(g & g1 & u2 & l & _ & Hg & Hlp & Hsc & ->)];
      [done|].
    cbn [final_db fst snd]. apply db_linked_consistent_stored; [done|].
    pose proof (update_goal_linked _ _ _ _ _ _ _ _ _ (utcnow db) Hlp Hsc) as Hl.
    unfold linked_consistent. cbv zeta in Hl.
    destruct (_ || _).
    + destruct Hl as (la & lm & Hc & -> & -> & _). rewrite is_Some_option_map.
      by apply (Hcreate la lm Hc).
    + destruct Hl as (-> & -> & _).
      apply get_goal_by_id_key in Hg as (_ & Hg & _). exact (Hdb _ _ Hg).
  - destruct (update_goal_progress_cases gid uid amount ty db)
      as [(m & l & ->)|(g & _ & _ & Hty & Hg & Hready & ->)]; [done|].
    cbn [final_db fst snd]. apply db_linked_consistent_stored; [done|].
    unfold linked_consistent.
    destruct (progressed_keeps (utcnow db) (fl amount) ty g) as (_ & _ & -> & _).
    destruct Hty as [-> | ->].
    + destruct (progressed_manual (utcnow db) (fl amount) "manual" g) as [_ ->];
        [done|].
      apply get_goal_by_id_key in Hg as (_ & Hg & _). exact (Hdb _ _ Hg).
    + intros _. destruct (Hready eq_refl) as (a & -> & _). by eexists.
Qed.

Lemma linked_fields_follow_payload_witness :
  db_linked_consistent bank500 /\ payload_linked_consistent goal_a /\
  db_linked_consistent (final_db (Facade.create_goal Plain.builtins 1 goal_a bank500)).
Proof.
  assert (H0 : db_linked_consistent bank500).
  { intros i g H. vm_compute in H. discriminate H. }
  assert (H1 : payload_linked_consistent goal_a).
  { intros _. vm_compute. reflexivity. }
  split; [exact H0|]. split; [exact H1|].
  exact (proj1 (linked_fields_follow_payload Plain.builtins 1 1 goal_a 1%Q "manual"
                  bank500 H0) H1).
Defined.

(** C2 as stated fails: creating a goal from a payload with
    [linked_amount] 100 and no [linked_account_id] stores a goal whose
    [linked_amount] is present and whose [linked_account_id] is absent. *)
Lemma linked_amount_without_account :
  let db' := final_db (Facade.create_goal Plain.builtins 1 goal_unlinked bank500) in
  db_linked_consistent bank500 /\
  (exists g, goals db' !! 1 = Some g /\
             linked_amount g = Some 100%Q /\ linked_account_id g = None) /\
  ~ db_linked_consistent db'.
Proof.
  intros db'.
  assert (Hg : exists g, goals db' !! 1 = Some g /\
                         linked_amount g = Some 100%Q /\ linked_account_id g = None).
  { eexists. split; [vm_compute; reflexivity|]. split; reflexivity. }
  split; [|split; [exact Hg|]].
  - intros i g H. vm_compute in H. discriminate H.
  - intros H. destruct Hg as (g & Hl & Hm & Ha).
    specialize (H 1 g Hl). unfold linked_consistent in H.
    rewrite Hm, Ha in H. destruct H as [x Hx]; [by eexists|]. discriminate Hx.
Qed.

(** What a passed [check_linked] entered. *)
Lemma check_linked_run {N : Numerics} uid la lm excl db :
  outcome (Facade.check_linked uid la lm excl db) = Ok tt ->
  match la, lm with
  | Some a, Some q =>
      if a =? 0 then checks (Facade.check_linked uid la lm excl db) = []
      else checks (Facade.check_linked uid la lm excl db) = [LedgerCheck uid a q excl] /\
           ledger_admits uid a q excl db
  | _, _ => checks (Facade.check_linked uid la lm excl db) = []
  end.
Proof.
  unfold Facade.check_linked. destruct la as [a|], lm as [q|]; try done.
  destruct (a =? 0); simpl; [done|].
  intros H. split; [apply ledger_checks|by apply ledger_ok_admits].
Qed.

(** C3, as the code has it.  A successful create or update runs the
    ledger check once, on the persisted goals and on the amount the
    payload gives, converted to a float, when the goal is left with a
    non-zero [linked_account_id] and a [linked_amount], which is that
    amount as its column rounds it (for an update: by a payload that
    names a linked field); it runs no check when either is missing, when
    the account id is zero, or when the update names no linked field.  A
    successful linked contribution always ran the check, on the goal's
    account and its raised amount. *)
Theorem ledger_check_runs_when_both_linked_fields {N : Numerics} :
  forall B uid gid kwargs amount db d,
    (outcome (Facade.create_goal B uid kwargs db) = Ok d ->
     match linked_account_id (d_goal d), linked_amount (d_goal d) with
     | Some a, Some stored_amount =>
         if a =? 0 then checks (Facade.create_goal B uid kwargs db) = []
         else exists q,
             outcome (Facade._validate_and_convert_linked_fields B
                        (Facade.get "linked_account_id" kwargs)
                        (Facade.get "linked_amount" kwargs) db) = Ok (Some a, Some q) /\
             stored_amount = numeric q /\
             checks (Facade.create_goal B uid kwargs db) = [LedgerCheck uid a q None] /\
             ledger_admits uid a q None db
     | _, _ => checks (Facade.create_goal B uid kwargs db) = []
     end) /\
    (outcome (Facade.update_goal B gid uid kwargs db) = Ok d ->
     if bool_decide (is_Some (kwargs !! "linked_account_id")) ||
        bool_decide (is_Some (kwargs !! "linked_amount"))
     then
       match linked_account_id (d_goal d), linked_amount (d_goal d) with
       | Some a, Some stored_amount =>
           if a =? 0 then checks (Facade.update_goal B gid uid kwargs db) = []
           else exists q,
               outcome (Facade._validate_and_convert_linked_fields B
                          (Facade.get "linked_account_id" kwargs)
                          (Facade.get "linked_amount" kwargs) db) = Ok (Some a, Some q) /\
               stored_amount = numeric q /\
               checks (Facade.update_goal B gid uid kwargs db) =
                 [LedgerCheck uid a q (Some gid)] /\
               ledger_admits uid a q (Some gid) db
       | _, _ => checks (Facade.update_goal B gid uid kwargs db) = []
       end
     else checks (Facade.update_goal B gid uid kwargs db) = []) /\
    (outcome (Facade.update_goal_progress gid uid amount "linked" db) = Ok d ->
     exists g a,
       let raised := fl (fl (or_zero (linked_amount g)) + fl amount) in
       Repo.get_goal_by_id gid uid db = Some (gid, g) /\
       linked_account_id g = Some a /\ a <> 0 /\
       checks (Facade.update_goal_progress gid uid amount "linked" db) =
         [LedgerCheck uid a raised (Some gid)] /\
       ledger_admits uid a raised (Some gid) db).
Proof.
  intros B uid gid kwargs amount db d.
  assert (Hrun : forall la lm excl l (c : result (option Z * option Q)),
    c = Ok (la, lm) ->
    outcome (Facade.check_linked uid la lm excl db) = Ok tt ->
    l = checks (Facade.check_linked uid la lm excl db) ->
    match la, option_map numeric lm with
    | Some a, Some stored_amount =>
        if a =? 0 then l = []
        else exists q, c = Ok (Some a, Some q) /\ stored_amount = numeric q /\
                       l = [LedgerCheck uid a q excl] /\ ledger_admits uid a q excl db
    | _, _ => l = []
    end).
  { intros la lm excl l c -> Hk ->. pose proof (check_linked_run _ _ _ _ _ Hk) as Hr.
    destruct la as [a|], lm as [q|]; try done. cbn [option_map].
    destruct (a =? 0); [done|]. destruct Hr as [Hr1 Hr2]. by exists q. }
  split; [|split].
  - destruct (create_goal_cases B uid kwargs db)
      as [(e & l & -> & _)|(t & tg & ds & dl & la & lm & _ & Hc & Hk & _ & ->)];
      [done|].
    cbn [outcome checks fst snd]. intros [= <-]. simpl.
    exact (Hrun la lm None _ _ Hc Hk eq_refl).
  - destruct (update_goal_cases B gid uid kwargs db)
      as [(e & l & -> & _)|(g & g1 & u2 & l & _ & Hg & Hlp & Hsc & ->)];
      [done|].
    cbn [outcome checks fst snd]. intros [= <-]. simpl.
    pose proof (update_goal_linked _ _ _ _ _ _ _ _ _ (utcnow db) Hlp Hsc) as Hl.
    cbv zeta in Hl.
    destruct (_ || _).
    + destruct Hl as (la & lm & Hc & -> & -> & Hk & Hl).
      exact (Hrun la lm (Some gid) _ _ Hc Hk Hl).
    + by destruct Hl as (_ & _ & ->).
  - destruct (update_goal_progress_cases gid uid amount "linked" db)
      as [(m & l & ->)|(g & _ & _ & _ & Hg & Hready & ->)]; [done|].
    cbn [outcome checks fst snd]. intros _.
    destruct (Hready eq_refl) as (a & Ha & Hne & Hok).
    exists g, a. repeat split; try done.
    + unfold progress_checks. simpl. by rewrite Ha.
    + by apply ledger_ok_admits.
Qed.

Lemma ledger_check_runs_when_both_linked_fields_witness :
  exists d, outcome (Facade.create_goal Plain.builtins 1 goal_a bank500) = Ok d /\
            exists q,
              outcome (Facade._validate_and_convert_linked_fields Plain.builtins
                         (PInt 7) (PInt 500) bank500) = Ok (Some 7, Some q) /\
              (500 : Q) = numeric q /\
              checks (Facade.create_goal Plain.builtins 1 goal_a bank500) =
                [LedgerCheck 1 7 q None] /\
              ledger_admits 1 7 q None bank500.
Proof.
  let r := eval vm_compute in
             (outcome (Facade.create_goal Plain.builtins 1 goal_a bank500)) in
  match r with
  | Ok ?d =>
      exists d; split; [vm_compute; reflexivity|];
      apply (proj1 (ledger_check_runs_when_both_linked_fields (N := Plain.numerics)
                      Plain.builtins 1 1 goal_a 1%Q bank500 d));
      vm_compute; reflexivity
  end.
Defined.

(** C3 as stated fails: on goal 1, which reserves 500 of the 500
    available on account 7, the update with [linked_amount] 9999 and no
    [linked_account_id] succeeds, commits 9999 and enters no ledger
    check. *)
Lemma linked_amount_committed_unchecked :
  let run := Facade.update_goal Plain.builtins 1 1 amount_update bank_a in
  (exists d, outcome run = Ok d /\
             linked_amount (d_goal d) = Some 9999%Q /\
             linked_account_id (d_goal d) = None /\
             goals (final_db run) !! 1 = Some (d_goal d)) /\
  checks run = [].
Proof.
  intros run. split; [|vm_compute; reflexivity].
  eexists. split; [vm_compute; reflexivity|].
  split; [reflexivity|]. split; [reflexivity|]. vm_compute. reflexivity.
Qed.

Lemma convert_not_given {N : Numerics} B a m db la lm :
  Facade.is_given a = false ->
  outcome (Facade._validate_and_convert_linked_fields B a m db) = Ok (la, lm) ->
  la = None.
Proof.
  intros Ha Hc. apply convert_linked_given in Hc as [Hc _].
  destruct la; [|done]. destruct Hc as [_ Hc]. rewrite Hc in Ha; [done|by eexists].
Qed.

(** The update [{linked_amount: q}] of a goal the user owns goes through. *)
Lemma update_amount_only_run {N : Numerics} B gid uid q db g :
  Repo.user_exists uid db = true ->
  Repo.get_goal_by_id gid uid db = Some (gid, g) ->
  let g' := Repo.rounded_linked
              (GoalModel.with_updated_at (utcnow db)
                 (GoalModel.with_linked_amount (Some q)
                    (GoalModel.with_linked_account_id None g))) in
  Facade.update_goal B gid uid {["linked_amount" := PFloat q]} db =
  (Ok (to_dict (today db) (gid, g')), stored gid g' db, []).
Proof.
  intros Hu Hg g'. unfold Facade.update_goal.
  rewrite bind_pure_run by apply pure_validate_user_exists.
  rewrite (validate_user_exists_run _ _ Hu). cbn [outcome fst].
  rewrite bind_pure_run by apply pure_validate_fields.
  unfold Facade.validate_fields. rewrite map_to_list_singleton.
  assert (Hf : filter (fun k => k ∉ Facade.VALID_FIELDS)
                 ([("linked_amount", PFloat q)].*1) = [])
    by (vm_compute; reflexivity).
  rewrite Hf. cbn [outcome fst ret].
  rewrite !lookup_singleton_ne by done.
  rewrite bind_pure_run by apply pure_ret. cbn [outcome fst ret].
  rewrite bind_pure_run by apply pure_ret. cbn [outcome fst ret].
  rewrite bind_pure_run by apply pure_ret. cbn [outcome fst ret].
  rewrite lookup_singleton_ne by done. rewrite lookup_singleton_eq.
  replace (bool_decide (is_Some (@None pyval))) with false
    by (symmetry; apply bool_decide_eq_false; by intros [x Hx]).
  replace (bool_decide (is_Some (Some (PFloat q)))) with true
    by (symmetry; apply bool_decide_eq_true; by eexists).
  cbn [orb].
  unfold Facade.get. rewrite lookup_singleton_ne by done. rewrite lookup_singleton_eq.
  cbn [default from_option id].
  unfold Facade._validate_and_convert_linked_fields, Facade.check_linked.
  cbn [Facade.is_given Facade.to_float].
  unfold bind at 1 2 3 4. cbn [ret fst snd app Facade.pyval_of_int Facade.pyval_of_float].
  unfold bind at 1. cbn [ret fst snd app].
  fold (commit_update gid uid
          (<["linked_amount" := PFloat q]>
             (<["linked_account_id" := PNone]> {["linked_amount" := PFloat q]}))).
  destruct (commit_update_cases gid uid
          (<["linked_amount" := PFloat q]>
             (<["linked_account_id" := PNone]> {["linked_amount" := PFloat q]})) db)
    as [(e & He)|(g0 & g1 & Hg0 & Hsc & ->)].
  - exfalso. revert He. clear g'.
    unfold commit_update, Repo.update_goal, Repo.update, Repo.store, try_except, bind,
      get_db, ret, raise.
    rewrite Hg. cbn [snd fst].
    assert (Hsc : Repo.set_columns Repo.columns
              (<["linked_amount" := PFloat q]>
                 (<["linked_account_id" := PNone]> {["linked_amount" := PFloat q]})) g
            = Some (GoalModel.with_linked_amount (Some q)
                      (GoalModel.with_linked_account_id None g)))
      by (vm_compute; reflexivity).
    rewrite Hsc. done.
  - rewrite Hg in Hg0. injection Hg0 as <-.
    assert (Hsc' : Repo.set_columns Repo.columns
              (<["linked_amount" := PFloat q]>
                 (<["linked_account_id" := PNone]> {["linked_amount" := PFloat q]})) g
            = Some (GoalModel.with_linked_amount (Some q)
                      (GoalModel.with_linked_account_id None g)))
      by (vm_compute; reflexivity).
    rewrite Hsc' in Hsc. injection Hsc as <-.
    assert (Hr : forall x, Repo.rounded_columns
              (<["linked_amount" := PFloat q]>
                 (<["linked_account_id" := PNone]> {["linked_amount" := PFloat q]})) x
            = Repo.rounded_linked x).
    { intros x. unfold Repo.rounded_columns.
      rewrite lookup_insert_eq. rewrite !lookup_insert_ne by done.
      rewrite lookup_singleton_ne by done.
      replace (bool_decide (is_Some (@None pyval))) with false
        by (symmetry; apply bool_decide_eq_false; by intros [y Hy]).
      replace (bool_decide (is_Some (Some (PFloat q)))) with true
        by (symmetry; apply bool_decide_eq_true; by eexists).
      reflexivity. }
    rewrite Hr. reflexivity.
Qed.

(** C9.  An update whose payload names [linked_amount] or
    [linked_account_id] and gives no account (key absent, [None] or the
    empty string) enters no ledger check; when it succeeds the stored
    [linked_account_id] of the goal is [None], whatever it was, and
    [linked_amount] is what its column keeps of the converted payload
    value; when it raises
    nothing is written.  The update that names [linked_amount] alone
    succeeds on every goal of an existing user. *)
Theorem update_without_account_clears_link {N : Numerics} :
  forall B gid uid updates db,
    is_Some (updates !! "linked_amount") \/ is_Some (updates !! "linked_account_id") ->
    Facade.is_given (Facade.get "linked_account_id" updates) = false ->
    let run := Facade.update_goal B gid uid updates db in
    checks run = [] /\
    (forall e, outcome run = Raise e -> final_db run = db) /\
    (forall d, outcome run = Ok d ->
       d_id d = gid /\
       linked_account_id (d_goal d) = None /\
       goals (final_db run) !! gid = Some (d_goal d) /\
       exists lm,
         outcome (Facade._validate_and_convert_linked_fields B PNone
                    (Facade.get "linked_amount" updates) db) = Ok (None, lm) /\
         linked_amount (d_goal d) = option_map numeric lm) /\
    (forall q g,
       updates = {["linked_amount" := PFloat q]} ->
       Repo.user_exists uid db = true ->
       Repo.get_goal_by_id gid uid db = Some (gid, g) ->
       exists d, outcome run = Ok d /\ linked_amount (d_goal d) = Some (numeric q)).
Proof.
  intros B gid uid updates db Hkey Hng run. subst run.
  assert (Hlast : forall q g,
    updates = {["linked_amount" := PFloat q]} ->
    Repo.user_exists uid db = true ->
    Repo.get_goal_by_id gid uid db = Some (gid, g) ->
    exists d, outcome (Facade.update_goal B gid uid updates db) = Ok d /\
              linked_amount (d_goal d) = Some (numeric q)).
  { intros q g -> Hu Hg. rewrite (update_amount_only_run B _ _ q _ _ Hu Hg).
    eexists. split; reflexivity. }
  assert (Hraised : forall l, raised_checks B uid updates (Some gid) db l -> l = []).
  { intros l [->|(la & lm & Hc & ->)]; [done|].
    by rewrite (convert_not_given _ _ _ _ _ _ Hng Hc). }
  assert (Hpn : forall m,
    Facade._validate_and_convert_linked_fields B
      (Facade.get "linked_account_id" updates) m =
    Facade._validate_and_convert_linked_fields B PNone m).
  { intros m. unfold Facade._validate_and_convert_linked_fields. by rewrite Hng. }
  destruct (update_goal_cases B gid uid updates db)
    as [(e & l & He & Hl)|(g & g1 & u2 & l & _ & Hg & Hlp & Hsc & Hok)].
  - rewrite He in *. cbn [outcome final_db checks fst snd].
    split; [by apply Hraised|]. done.
  - rewrite Hok in *. cbn [outcome final_db checks fst snd].
    pose proof (update_goal_linked _ _ _ _ _ _ _ _ _ (utcnow db) Hlp Hsc) as Hl.
    assert (Hb : bool_decide (is_Some (updates !! "linked_account_id")) ||
                 bool_decide (is_Some (updates !! "linked_amount")) = true).
    { destruct Hkey as [H|H]; rewrite (bool_decide_eq_true_2 _ H);
        [apply orb_true_r|done]. }
    rewrite Hb in Hl. destruct Hl as (la & lm & Hc & Hla & Hlm & _ & ->).
    pose proof (convert_not_given _ _ _ _ _ _ Hng Hc) as ->.
    split; [done|]. split; [done|]. split; [|done]. intros d [= <-]. simpl.
    split; [done|]. split; [done|].
    split; [unfold stored, set_goals; simpl; by rewrite lookup_insert_eq|].
    exists lm. rewrite <- Hpn. done.
Qed.

Lemma update_without_account_clears_link_witness :
  exists d,
    outcome (Facade.update_goal Plain.builtins 1 1 amount_update bank_a) = Ok d /\
    linked_account_id (d_goal d) = None /\
    checks (Facade.update_goal Plain.builtins 1 1 amount_update bank_a) = [].
Proof.
  assert (Hkey : is_Some (amount_update !! "linked_amount") \/
                 is_Some (amount_update !! "linked_account_id")).
  { left. eexists. vm_compute. reflexivity. }
  assert (Hng : Facade.is_given (Facade.get "linked_account_id" amount_update) = false).
  { vm_compute. reflexivity. }
  pose proof (update_without_account_clears_link Plain.builtins 1 1 amount_update bank_a
                Hkey Hng) as (Hchecks & _ & Hok & _).
  let r := eval vm_compute in
    (outcome (Facade.update_goal Plain.builtins 1 1 amount_update bank_a)) in
  match r with
  | Ok ?d =>
      assert (Hd : outcome (Facade.update_goal Plain.builtins 1 1 amount_update bank_a)
                   = Ok d) by (vm_compute; reflexivity);
      exists d; split; [exact Hd|]; split; [|exact Hchecks];
      exact (proj1 (proj2 (Hok d Hd)))
  end.
Defined.

(** ** Creation *)

Lemma get_insert_ne k k' v (m : gmap string pyval) :
  k <> k' -> Facade.get k' (<[k := v]> m) = Facade.get k' m.
Proof. intros H. unfold Facade.get. by rewrite lookup_insert_ne. Qed.

Lemma get_or_empty_insert_ne k k' v (m : gmap string pyval) :
  k <> k' -> Facade.get_or_empty k' (<[k := v]> m) = Facade.get_or_empty k' m.
Proof. intros H. unfold Facade.get_or_empty. by rewrite lookup_insert_ne. Qed.

(** A payload with a title and a positive target is accepted. *)
Lemma create_minimal_run {N : Numerics} B uid t z db :
  Repo.user_exists uid db = true ->
  str_strip B t <> "" -> 0 < z ->
  let g := Repo.rounded_linked
             (Repo.rounded_target
                (GoalModel.init (utcnow db) uid (PStr (str_strip B t)) (inject_Z z)
                   (if String.eqb (str_strip B "") "" then PNone
                    else PStr (str_strip B ""))
                   None PNone None None)) in
  Facade.create_goal B uid {["title" := PStr t; "target_amount" := PInt z]} db =
  (Ok (to_dict (today db) (next_goal_id db, g)), inserted g db, []).
Proof.
  intros Hu Ht Hz g. unfold Facade.create_goal.
  rewrite bind_pure_run by apply pure_validate_user_exists.
  rewrite (validate_user_exists_run _ _ Hu). cbn [outcome fst].
  unfold Facade.get_or_empty, Facade.get.
  rewrite lookup_insert_eq. rewrite !lookup_insert_ne by done.
  rewrite lookup_singleton_eq. rewrite !lookup_singleton_ne by done.
  cbn [default from_option id Facade.strip].
  rewrite bind_pure_run by apply pure_ret. cbn [outcome fst ret].
  rewrite bind_pure_run by apply pure_raise_if.
  destruct (String.eqb_spec (str_strip B t) "") as [E|_]; [done|].
  cbn [raise_if outcome fst ret].
  cbn [truthy negb Facade.le_zero float_of_num].
  destruct (Z.eqb_spec z 0) as [E|_]; [lia|].
  destruct (Z.leb_spec z 0) as [E|_]; [lia|].
  cbn [negb].
  rewrite bind_pure_run by apply pure_ret. cbn [outcome fst ret].
  rewrite bind_pure_run by apply pure_parse_deadline.
  cbn [Facade._validate_and_parse_deadline truthy negb outcome fst ret].
  rewrite bind_pure_run by apply pure_raise_if.
  cbn [andb raise_if outcome fst ret].
  rewrite bind_pure_run by apply pure_convert.
  unfold Facade._validate_and_convert_linked_fields.
  cbn [Facade.is_given]. unfold bind at 2 3. cbn [ret outcome fst snd app].
  rewrite bind_pure_run by (unfold Facade.check_linked; simpl; apply pure_ret).
  cbn [Facade.check_linked fst snd outcome ret].
  rewrite bind_pure_run by apply pure_ret. cbn [outcome fst ret String.eqb].
  reflexivity.
Qed.

(** C10.  A goal created by [create_goal] has status [active] and
    [current_amount] 0 and is the row stored under its id; a [status] or
    [current_amount] entry of the payload changes nothing in what
    [create_goal] returns, writes or checks.  A payload of a non-blank
    title and a positive target is accepted for every existing user. *)
Theorem created_goal_starts_active_at_zero {N : Numerics} :
  forall B uid kwargs db,
    let run := Facade.create_goal B uid kwargs db in
    (forall d, outcome run = Ok d ->
       status (d_goal d) = "active" /\
       current_amount (d_goal d) = Some 0%Q /\
       goals (final_db run) !! d_id d = Some (d_goal d)) /\
    (forall v, Facade.create_goal B uid (<["status" := v]> kwargs) db = run) /\
    (forall v, Facade.create_goal B uid (<["current_amount" := v]> kwargs) db = run) /\
    (forall t z,
       kwargs = {["title" := PStr t; "target_amount" := PInt z]} ->
       Repo.user_exists uid db = true -> str_strip B t <> "" -> 0 < z ->
       exists d, outcome run = Ok d).
Proof.
  intros B uid kwargs db run. subst run. split; [|split; [|split]].
  - destruct (create_goal_cases B uid kwargs db)
      as [(e & l & -> & _)|(t & tg & ds & dl & la & lm & _ & _ & _ & _ & ->)];
      [done|].
    cbn [outcome final_db fst snd]. intros d [= <-]. simpl.
    by rewrite lookup_insert_eq.
  - intros v. unfold Facade.create_goal.
    by rewrite !get_insert_ne, !get_or_empty_insert_ne.
  - intros v. unfold Facade.create_goal.
    by rewrite !get_insert_ne, !get_or_empty_insert_ne.
  - intros t z -> Hu Ht Hz. rewrite (create_minimal_run B uid t z db Hu Ht Hz).
    by eexists.
Qed.

Lemma created_goal_starts_active_at_zero_witness :
  exists d,
    outcome (Facade.create_goal Plain.builtins 1
               (<["status" := PStr "completed"]>
                  (<["current_amount" := PInt 900]> goal_a)) bank500) = Ok d /\
    status (d_goal d) = "active" /\ current_amount (d_goal d) = Some 0%Q.
Proof.
  pose proof (created_goal_starts_active_at_zero Plain.builtins 1
                (<["status" := PStr "completed"]>
                   (<["current_amount" := PInt 900]> goal_a)) bank500) as (H & _).
  let r := eval vm_compute in
    (outcome (Facade.create_goal Plain.builtins 1
                (<["status" := PStr "completed"]>
                   (<["current_amount" := PInt 900]> goal_a)) bank500)) in
  match r with
  | Ok ?d =>
      assert (Hd : outcome (Facade.create_goal Plain.builtins 1
                              (<["status" := PStr "completed"]>
                                 (<["current_amount" := PInt 900]> goal_a)) bank500)
                   = Ok d) by (vm_compute; reflexivity);
      exists d; split; [exact Hd|];
      destruct (H d Hd) as (Hs & Hc & _); split; [exact Hs|exact Hc]
  end.
Defined.

(** ** A goal that is not found *)

(** Not found: absent, or owned by another user. *)
Lemma get_goal_by_id_none gid uid db :
  Repo.get_goal_by_id gid uid db = None <->
  goals db !! gid = None \/ exists g, goals db !! gid = Some g /\ user_id g <> uid.
Proof.
  unfold Repo.get_goal_by_id. destruct (goals db !! gid) as [g|].
  - destruct (Z.eqb_spec (user_id g) uid) as [E|E]; split; try done.
    + intros [H|(g' & [= <-] & H)]; done.
    + intros _. right. by exists g.
  - split; [by left|done].
Qed.

#[local] Arguments Repo.get_goal_by_id : simpl never.

(** C6, where the code departs from it.  For an existing user and a goal
    id that is absent or owned by someone else, [get_goal_by_id] raises
    [GoalNotFoundError], but [delete_goal] and [update_goal] raise
    [GoalValidationError]: the [GoalNotFoundError] of the repository is
    caught by the facade's [except Exception] and wrapped, and so is the
    one behind [update_goal_progress].  [update_goal] raises
    [GoalNotFoundError] on no input. *)
Theorem missing_goal_is_a_validation_error {N : Numerics} :
  forall B gid uid updates amount ty db,
    Repo.user_exists uid db = true ->
    (goals db !! gid = None \/ exists g, goals db !! gid = Some g /\ user_id g <> uid) ->
    outcome (Facade.get_goal_by_id gid uid db) =
      Raise (GoalNotFoundError (MsgGoalId gid)) /\
    outcome (Facade.delete_goal gid uid db) =
      Raise (GoalValidationError
               (MsgPrefixed "Error deleting goal: " (MsgGoalId gid))) /\
    outcome (Facade.update_goal B gid uid ∅ db) =
      Raise (GoalValidationError
               (MsgPrefixed "Error updating goal: " (MsgGoalId gid))) /\
    (exists e, outcome (Facade.update_goal B gid uid updates db) = Raise e /\
               is_not_found_error e = false) /\
    (exists m, outcome (Facade.update_goal_progress gid uid amount ty db) =
               Raise (GoalValidationError m)).
Proof.
  intros B gid uid updates amount ty db Hu Hnone. apply get_goal_by_id_none in Hnone.
  split; [|split; [|split; [|split]]].
  - unfold Facade.get_goal_by_id.
    rewrite bind_pure_run by apply pure_validate_user_exists.
    rewrite (validate_user_exists_run _ _ Hu). cbn [outcome fst].
    unfold bind, get_db. simpl. by rewrite Hnone.
  - unfold Facade.delete_goal.
    rewrite bind_pure_run by apply pure_validate_user_exists.
    rewrite (validate_user_exists_run _ _ Hu). cbn [outcome fst].
    unfold try_except, Repo.delete_goal, bind, get_db. simpl. by rewrite Hnone.
  - unfold Facade.update_goal.
    rewrite bind_pure_run by apply pure_validate_user_exists.
    rewrite (validate_user_exists_run _ _ Hu). cbn [outcome fst].
    rewrite bind_pure_run by apply pure_validate_fields.
    unfold Facade.validate_fields. rewrite map_to_list_empty.
    cbn [fmap list_fmap filter list_filter outcome fst ret].
    rewrite !lookup_empty.
    rewrite bind_pure_run by apply pure_ret. cbn [outcome fst ret].
    rewrite bind_pure_run by apply pure_ret. cbn [outcome fst ret].
    rewrite bind_pure_run by apply pure_ret. cbn [outcome fst ret].
    rewrite lookup_empty.
    replace (bool_decide (is_Some (@None pyval))) with false
      by (symmetry; apply bool_decide_eq_false; by intros [x Hx]).
    cbn [orb].
    rewrite bind_pure_run by apply pure_ret. cbn [outcome fst ret].
    unfold try_except, Repo.update_goal, bind, get_db, ret, raise.
    rewrite Hnone. reflexivity.
  - destruct (update_goal_cases B gid uid updates db)
      as [(e & l & He & _)|(g & g1 & u2 & l & _ & Hg & _)]; [|congruence].
    exists e. split; [by rewrite He|].
    apply (hides_update_goal B gid uid updates db). by rewrite He.
  - destruct (update_goal_progress_cases gid uid amount ty db)
      as [(m & l & ->)|(g & _ & _ & _ & Hg & _)]; [by exists m|congruence].
Qed.

Lemma missing_goal_is_a_validation_error_witness :
  outcome (Facade.update_goal Plain.builtins 99 1 title_update bank_a) =
    Raise (GoalValidationError
             (MsgPrefixed "Error updating goal: " (MsgGoalId 99))) /\
  outcome (Facade.delete_goal 99 1 bank_a) =
    Raise (GoalValidationError
             (MsgPrefixed "Error deleting goal: " (MsgGoalId 99))) /\
  outcome (Facade.get_goal_by_id 99 1 bank_a) =
    Raise (GoalNotFoundError (MsgGoalId 99)).
Proof.
  assert (Hu : Repo.user_exists 1 bank_a = true) by (vm_compute; reflexivity).
  assert (Hn : goals bank_a !! 99 = None \/
               exists g, goals bank_a !! 99 = Some g /\ user_id g <> 1).
  { left. vm_compute. reflexivity. }
  pose proof (missing_goal_is_a_validation_error Plain.builtins 99 1 title_update
                1%Q "manual" bank_a Hu Hn) as (Hget & Hdel & _).
  split; [vm_compute; reflexivity|]. split; [exact Hdel|exact Hget].
Defined.

(** ** Goals near their deadline *)

#[local] Instance deadline_le_total : Total Repo.deadline_le.
Proof.
  intros x y. unfold Repo.deadline_le.
  destruct (deadline x.2), (deadline y.2); try (by left); try (by right).
  destruct (Z.le_ge_cases z z0); [by left|by right].
Qed.

#[local] Instance deadline_le_trans : Transitive Repo.deadline_le.
Proof.
  intros x y z. unfold Repo.deadline_le.
  destruct (deadline x.2), (deadline y.2), (deadline z.2); try done. lia.
Qed.

(** The rows the query keeps. *)
Lemma near_deadline_row_spec uid t f g :
  Repo.near_deadline_row uid t f g = true <->
  user_id g = uid /\ status g = "active" /\
  exists d, deadline g = Some d /\ t <= d <= f.
Proof.
  unfold Repo.near_deadline_row.
  rewrite !andb_true_iff, Z.eqb_eq, String.eqb_eq.
  destruct (deadline g) as [d|].
  - rewrite andb_true_iff, !Z.leb_le. split.
    + intros [[Hu Hs] Hd]. repeat split; try done. by exists d.
    + intros (Hu & Hs & d' & [= <-] & Hd). done.
  - split; [by intros [_ ?]|by intros (_ & _ & d & ? & _)].
Qed.

Lemma repo_near_deadline_spec uid days db :
  let l := Repo.get_goals_near_deadline uid days db in
  (forall i g, (i, g) ∈ l <->
     goals db !! i = Some g /\ user_id g = uid /\ status g = "active" /\
     exists d, deadline g = Some d /\ today db <= d <= today db + days) /\
  NoDup l /\ StronglySorted Repo.deadline_le l.
Proof.
  unfold Repo.get_goals_near_deadline. cbv zeta. split; [|split].
  - intros i g. rewrite merge_sort_Permutation, list_elem_of_filter.
    rewrite elem_of_map_to_list, near_deadline_row_spec. simpl. tauto.
  - rewrite merge_sort_Permutation. apply NoDup_filter, NoDup_map_to_list.
  - apply StronglySorted_merge_sort; apply _.
Qed.

(** C8.  [get_goals_near_deadline] raises [GoalValidationError] for every
    [days] below 1 or above 30, writing nothing; for [days] from 1 to 30
    and an existing user it returns the dictionaries of exactly the
    user's goals that are [active] and due between today and today plus
    [days], both included, each once, in ascending order of deadline. *)
Theorem near_deadline_query {N : Numerics} :
  forall uid days db,
    let run := Facade.get_goals_near_deadline uid days db in
    (days < 1 \/ 30 < days ->
     exists m, run = (Raise (GoalValidationError m), db, [])) /\
    (1 <= days <= 30 -> Repo.user_exists uid db = true ->
     exists l,
       run = (Ok (map (to_dict (today db)) l), db, []) /\
       (forall i g, (i, g) ∈ l <->
          goals db !! i = Some g /\ user_id g = uid /\ status g = "active" /\
          exists d, deadline g = Some d /\ today db <= d <= today db + days) /\
       NoDup l /\ StronglySorted Repo.deadline_le l).
Proof.
  intros uid days db run. subst run. unfold Facade.get_goals_near_deadline.
  rewrite bind_pure_run by apply pure_validate_user_exists.
  split.
  - intros Hd.
    destruct (Repo.user_exists uid db) eqn:Hu.
    + rewrite (validate_user_exists_run _ _ Hu). cbn [outcome fst].
      rewrite bind_pure_run by apply pure_raise_if.
      assert (Hb : (days <? 1) || (days >? 30) = true).
      { apply orb_true_iff. destruct Hd; [left; by apply Z.ltb_lt|right].
        rewrite Z.gtb_ltb. by apply Z.ltb_lt. }
      rewrite Hb. cbn [raise_if outcome fst raise]. eauto.
    + unfold Facade._validate_user_exists, bind, get_db, raise_if.
      rewrite Hu. cbn [negb outcome fst raise]. eauto.
  - intros Hd Hu.
    rewrite (validate_user_exists_run _ _ Hu). cbn [outcome fst].
    rewrite bind_pure_run by apply pure_raise_if.
    assert (Hb : (days <? 1) || (days >? 30) = false).
    { apply orb_false_iff. split; [apply Z.ltb_ge; lia|].
      rewrite Z.gtb_ltb. apply Z.ltb_ge. lia. }
    rewrite Hb. cbn [raise_if outcome fst ret].
    exists (Repo.get_goals_near_deadline uid days db).
    split; [reflexivity|]. apply repo_near_deadline_spec.
Qed.

Lemma near_deadline_query_witness :
  (exists m, Facade.get_goals_near_deadline 1 0 deadlines_db =
             (Raise (GoalValidationError m), deadlines_db, [])) /\
  (exists m, Facade.get_goals_near_deadline 1 31 deadlines_db =
             (Raise (GoalValidationError m), deadlines_db, [])) /\
  exists l, Facade.get_goals_near_deadline 1 7 deadlines_db =
            (Ok (map (to_dict (today deadlines_db)) l), deadlines_db, []) /\
            NoDup l /\ StronglySorted Repo.deadline_le l.
Proof.
  split; [|split].
  - apply (near_deadline_query 1 0 deadlines_db). lia.
  - apply (near_deadline_query 1 31 deadlines_db). lia.
  - destruct (proj2 (near_deadline_query 1 7 deadlines_db)) as (l & Hl & _ & Hn & Hs);
      [lia|vm_compute; reflexivity|].
    exists l. split; [exact Hl|]. split; [exact Hn|exact Hs].
Defined.

(** With seven days to go: goal 2 (due in one day), then goal 1 (due in
    three). *)
Example near_deadline_in_seven_days :
  match outcome (Facade.get_goals_near_deadline 1 7 deadlines_db) with
  | Ok l => map d_id l = [2; 1]
  | Raise _ => False
  end.
Proof. vm_compute. reflexivity. Qed.

(** ** Progress *)

(** After a successful contribution through the facade. *)
Lemma update_goal_progress_ok {N : Numerics} gid uid amount ty db g d :
  Repo.get_goal_by_id gid uid db = Some (gid, g) ->
  outcome (Facade.update_goal_progress gid uid amount ty db) = Ok d ->
  (0 < amount)%Q /\
  d = to_dict (today db) (gid, progressed (utcnow db) (fl amount) ty g) /\
  final_db (Facade.update_goal_progress gid uid amount ty db) =
    stored gid (progressed (utcnow db) (fl amount) ty g) db.
Proof.
  intros Hg.
  destruct (update_goal_progress_cases gid uid amount ty db)
    as [(m & l & ->)|(g0 & _ & Hpos & _ & Hg0 & _ & ->)]; [done|].
  rewrite Hg in Hg0. injection Hg0 as <-.
  cbn [outcome final_db fst snd]. by intros [= <-].
Qed.

(** C4, amended.  [update_goal_progress] raises [GoalValidationError]
    and writes nothing when the amount is not positive or the type is
    neither [manual] nor [linked]; whenever it raises, the database is
    unchanged.  For an existing user and a goal of theirs, a positive
    [manual] contribution sets [current_amount] to what the column keeps
    of the float sum [float(current_amount or 0) + float(amount)]; a
    positive [linked] contribution sets [linked_amount] to what the
    column keeps of [float(linked_amount or 0) + float(amount)] when the
    goal has a linked account and the ledger admits the raised amount,
    and raises [GoalValidationError] otherwise.  With lawful numerics
    the amount of a stored goal never gets smaller.  With binary64
    floats and two-decimal columns the amount grows by exactly the
    contribution when both have at most two decimals and the raised
    amount stays within 0 and 100000000, the range of the column. *)
Theorem progress_contribution :
  (forall (N : Numerics) gid uid amount ty db,
    let run := Facade.update_goal_progress gid uid amount ty db in
    ((amount <= 0)%Q \/ (ty <> "manual" /\ ty <> "linked") ->
     exists m l, run = (Raise (GoalValidationError m), db, l)) /\
    (forall e, outcome run = Raise e -> final_db run = db) /\
    (forall g,
       Repo.user_exists uid db = true -> (0 < amount)%Q ->
       Repo.get_goal_by_id gid uid db = Some (gid, g) ->
       (ty = "manual" ->
        exists g',
          outcome run = Ok (to_dict (today db) (gid, g')) /\
          goals (final_db run) !! gid = Some g' /\
          current_amount g' =
            Some (numeric (fl (fl (or_zero (current_amount g)) + fl (fl amount)))) /\
          linked_amount g' = linked_amount g /\
          linked_account_id g' = linked_account_id g /\
          (Lawful N -> amounts_stored g ->
           (or_zero (current_amount g) <= or_zero (current_amount g'))%Q /\
           amounts_stored g')) /\
       (ty = "linked" ->
        (linked_ready gid uid amount g db ->
         exists g',
           outcome run = Ok (to_dict (today db) (gid, g')) /\
           goals (final_db run) !! gid = Some g' /\
           linked_amount g' =
             Some (numeric (fl (fl (or_zero (linked_amount g)) + fl (fl amount)))) /\
           current_amount g' = current_amount g /\
           linked_account_id g' = linked_account_id g /\
           (Lawful N -> amounts_stored g ->
            (or_zero (linked_amount g) <= or_zero (linked_amount g'))%Q /\
            amounts_stored g')) /\
        (~ linked_ready gid uid amount g db ->
         exists m l, run = (Raise (GoalValidationError m), db, l))))) /\
  (forall gid uid amount ty db g d,
      Repo.get_goal_by_id gid uid db = Some (gid, g) ->
      outcome (Facade.update_goal_progress (N := Plain.numerics)
                 gid uid amount ty db) = Ok d ->
      let old := or_zero (if String.eqb ty "linked" then linked_amount g
                          else current_amount g) in
      let new := or_zero (if String.eqb ty "linked" then linked_amount (d_goal d)
                          else current_amount (d_goal d)) in
      Plain.is_cents old -> Plain.is_cents amount ->
      (0 <= old)%Q -> (old + amount <= 100000000)%Q ->
      (new == old + amount)%Q).
Proof.
  split.
  2:{ intros gid uid amount ty db g d Hg Hok old new Hco Hca H0 Hmax.
      destruct (update_goal_progress_ok _ _ _ _ _ _ _ Hg Hok) as (Hpos & -> & _).
      subst old new. cbn [d_goal to_dict snd] in *.
      destruct (String.eqb_spec ty "linked") as [->|Hne].
      - destruct (progressed_linked (N := Plain.numerics) (utcnow db)
                    (fl amount) g) as [-> _].
        rewrite or_zero_eq.
        apply PlainFacts.cents_sum_stored; [done|done|done| |done].
        by apply Qlt_le_weak.
      - destruct (progressed_manual (N := Plain.numerics) (utcnow db)
                    (fl amount) ty g Hne) as [-> _].
        rewrite or_zero_eq.
        apply PlainFacts.cents_sum_stored; [done|done|done| |done].
        by apply Qlt_le_weak. }
  intros N gid uid amount ty db run. subst run.
  pose proof (update_goal_progress_cases gid uid amount ty db) as Hcases.
  split; [|split].
  - intros Hbad.
    destruct Hcases as [(m & l & ->)|(g & _ & Hpos & Hty & _)]; [eauto|].
    destruct Hbad as [Hle|[Hm Hl]].
    + exfalso. exact (Qlt_not_le _ _ Hpos Hle).
    + by destruct Hty.
  - intros e. destruct Hcases as [(m & l & ->)|(g & _ & _ & _ & _ & _ & ->)]; done.
  - intros g Hu Hpos Hg. split.
    + intros ->.
      destruct Hcases as [(m & l & Hr)|(g0 & _ & _ & _ & Hg0 & _ & ->)].
      * exfalso. revert Hr. unfold Facade.update_goal_progress.
        rewrite bind_pure_run by apply pure_validate_user_exists.
        rewrite (validate_user_exists_run _ _ Hu). cbn [outcome fst].
        rewrite bind_pure_run by apply pure_validate_amount.
        unfold Facade._validate_amount.
        replace (Qle_bool amount 0) with false
          by (symmetry; by apply Qle_bool_false).
        cbn [raise_if outcome fst ret].
        rewrite bind_pure_run by apply pure_validate_progress_type.
        cbn [Facade._validate_progress_type raise_if outcome fst ret].
        rewrite bind_pure_run by apply pure_ret. cbn [outcome fst ret].
        fold (commit_progress gid uid (fl amount) "manual").
        destruct (commit_progress_cases gid uid (fl amount) "manual" db)
          as [(m' & Hn & _)|(g1 & _ & ->)]; [congruence|done].
      * rewrite Hg in Hg0. injection Hg0 as <-.
        cbn [outcome final_db fst snd]. eexists. split; [reflexivity|].
        split; [unfold stored, set_goals; simpl; by rewrite lookup_insert_eq|].
        destruct (progressed_manual (utcnow db) (fl amount) "manual" g)
          as [Hc Hl]; [done|].
        destruct (progressed_keeps (utcnow db) (fl amount) "manual" g)
          as (_ & _ & Ha & _).
        split; [exact Hc|]. split; [exact Hl|]. split; [exact Ha|].
        intros L [Hsc Hsl]. unfold amounts_stored. rewrite Hc, Hl.
        split; [|split; [|exact Hsl]].
        -- rewrite or_zero_eq. apply column_value_grows; [exact Hsc|].
           apply fl_nonneg, fl_nonneg. by apply Qlt_le_weak.
        -- eapply column_value_proper; [symmetry; apply or_zero_eq|].
           apply column_value_numeric.
    + intros ->. split.
      * intros (a & Ha & Hne & Hok).
        destruct Hcases as [(m & l & Hr)|(g0 & _ & _ & _ & Hg0 & _ & ->)].
        -- exfalso. revert Hr. unfold Facade.update_goal_progress.
           rewrite bind_pure_run by apply pure_validate_user_exists.
           rewrite (validate_user_exists_run _ _ Hu). cbn [outcome fst].
           rewrite bind_pure_run by apply pure_validate_amount.
           unfold Facade._validate_amount.
           replace (Qle_bool amount 0) with false
             by (symmetry; by apply Qle_bool_false).
           cbn [raise_if outcome fst ret].
           rewrite bind_pure_run by apply pure_validate_progress_type.
           cbn [Facade._validate_progress_type raise_if outcome fst ret].
           rewrite bind_reads_run.
           2:{ intros db0. cbn [String.eqb Ascii.eqb Bool.eqb].
               rewrite bind_pure_run by apply pure_get_db.
               cbn [outcome fst get_db].
               destruct (Repo.get_goal_by_id gid uid db0) as [o|]; [|done].
               destruct (linked_account_id o.2) as [a0|]; [|done].
               destruct (a0 =? 0); [done|]. apply reads_ledger. }
           cbn [String.eqb Ascii.eqb Bool.eqb].
           rewrite !(bind_pure_run get_db) by apply pure_get_db.
           cbn [outcome fst get_db]. rewrite Hg. cbn [snd]. rewrite Ha.
           apply Z.eqb_neq in Hne. rewrite Hne. rewrite Hok.
           fold (commit_progress gid uid (fl amount) "linked").
           destruct (commit_progress_cases gid uid (fl amount) "linked" db)
             as [(m' & Hn & _)|(g1 & _ & ->)]; [congruence|done].
        -- rewrite Hg in Hg0. injection Hg0 as <-.
           cbn [outcome final_db fst snd]. eexists. split; [reflexivity|].
           split; [unfold stored, set_goals; simpl; by rewrite lookup_insert_eq|].
           destruct (progressed_linked (utcnow db) (fl amount) g) as [Hl Hc].
           destruct (progressed_keeps (utcnow db) (fl amount) "linked" g)
             as (_ & _ & Hacc & _).
           split; [exact Hl|]. split; [exact Hc|]. split; [exact Hacc|].
           intros L [Hsc Hsl]. unfold amounts_stored. rewrite Hc, Hl.
           split; [|split; [exact Hsc|]].
           ++ rewrite or_zero_eq. apply column_value_grows; [exact Hsl|].
              apply fl_nonneg, fl_nonneg. by apply Qlt_le_weak.
           ++ eapply column_value_proper; [symmetry; apply or_zero_eq|].
              apply column_value_numeric.
      * intros Hnot.
        destruct Hcases as [(m & l & ->)|(g0 & _ & _ & _ & Hg0 & Hready & _)];
          [eauto|].
        rewrite Hg in Hg0. injection Hg0 as <-. exfalso. by apply Hnot, Hready.
Qed.

Lemma progress_contribution_witness :
  exists g',
    outcome (Facade.update_goal_progress 1 1 60 "manual" savings_db) =
      Ok (to_dict 739000 (1, g')) /\
    current_amount g' = Some 60%Q.
Proof.
  destruct (proj2 (proj2 (proj1 progress_contribution Plain.numerics
                            1 1 60%Q "manual" savings_db))
              (sample_goal 1 None "active"))
    as [Hm _]; [vm_compute; reflexivity..|].
  destruct (Hm eq_refl) as (g' & Ho & _ & Hc & _).
  exists g'. split; [exact Ho|].
  rewrite Hc. vm_compute. reflexivity.
Defined.

(** The claim as the spec has it fails: a manual contribution of 1/1024
    to a goal with nothing contributed is accepted and leaves
    [current_amount] at 0, not at 1/1024. *)
Lemma contribution_below_a_cent :
  (0 < 1 # 1024)%Q /\
  exists g',
    outcome (Facade.update_goal_progress 1 1 (1 # 1024) "manual" savings_db) =
      Ok (to_dict 739000 (1, g')) /\
    goals (final_db (Facade.update_goal_progress 1 1 (1 # 1024) "manual" savings_db))
      !! 1 = Some g' /\
    current_amount (sample_goal 1 None "active") = Some 0%Q /\
    current_amount g' = Some 0%Q /\
    ~ (or_zero (current_amount g') ==
       or_zero (current_amount (sample_goal 1 None "active")) + (1 # 1024))%Q.
Proof.
  split; [reflexivity|].
  exists (GoalModel.with_updated_at 1000 (sample_goal 1 None "active")).
  split; [vm_compute; reflexivity|]. split; [vm_compute; reflexivity|].
  split; [reflexivity|]. split; [reflexivity|]. vm_compute. discriminate.
Qed.

(** A contribution of 0.005 raises the amount by a cent, one of 0.004
    leaves it as it was. *)
Example half_cent_contributions :
  (forall g', goals (final_db (Facade.update_goal_progress 1 1 (5 # 1000) "manual"
                                 savings_db)) !! 1 = Some g' ->
              current_amount g' = Some (1 # 100)%Q) /\
  (forall g', goals (final_db (Facade.update_goal_progress 1 1 (4 # 1000) "manual"
                                 savings_db)) !! 1 = Some g' ->
              current_amount g' = Some 0%Q).
Proof.
  split; intros g'; vm_compute; by intros [= <-].
Qed.

(** The target of a goal the facade creates is what the column keeps of
    a positive number. *)
Lemma created_goal_target {N : Numerics} B uid kwargs db d :
  outcome (Facade.create_goal B uid kwargs db) = Ok d ->
  exists target, (0 < target)%Q /\ target_amount (d_goal d) = numeric target.
Proof.
  destruct (create_goal_cases B uid kwargs db)
    as [(e & l & -> & _)|(t & tg & ds & dl & la & lm & _ & _ & _ & Ht & ->)];
    [done|].
  cbn [outcome fst]. intros [= <-]. by exists tg.
Qed.

(** A positive target below half a cent is stored as 0. *)
Example tiny_target_stored_as_zero :
  match outcome (Facade.create_goal Plain.builtins 1
                   {["title" := PStr "Car"; "target_amount" := PFloat (1 # 1024)]}
                   bank500) with
  | Ok d => target_amount (d_goal d) = 0%Q
  | Raise _ => False
  end.
Proof. vm_compute. reflexivity. Qed.

(** C5, amended.  After a successful contribution to a goal with a
    positive target, the stored goal is [completed] when the float
    percentage [calculate_progress()] of the goal as updated in memory,
    before the commit rounds the new amount, is at least 100, and keeps
    its former status otherwise; with lawful numerics that percentage is
    [min(100, total / float(target) * 100)] for the float total of the
    two amounts in memory, and it is 100 whenever that total reaches
    [float(target_amount)].  So the status becomes [cancelled] only if
    it was, and a [completed] goal stays [completed]. *)
Theorem completion_on_progress {N : Numerics} :
  forall gid uid amount ty db g d,
    Repo.get_goal_by_id gid uid db = Some (gid, g) ->
    (0 < target_amount g)%Q ->
    outcome (Facade.update_goal_progress gid uid amount ty db) = Ok d ->
    let in_memory := GoalModel.update_progress (utcnow db) (fl amount) ty g in
    let percentage := GoalModel.calculate_progress in_memory in
    let total := fl (fl (or_zero (current_amount in_memory)) +
                     fl (or_zero (linked_amount in_memory))) in
    let g' := d_goal d in
    g' = Repo.rounded_progress ty in_memory /\
    goals (final_db (Facade.update_goal_progress gid uid amount ty db)) !! gid = Some g' /\
    target_amount g' = target_amount g /\
    ((100 <= percentage)%Q -> status g' = "completed") /\
    ((percentage < 100)%Q -> status g' = status g) /\
    (Lawful N ->
     (percentage == Qmin 100 (fl (fl (total / fl (target_amount g)) * 100)))%Q /\
     ((fl (target_amount g) <= total)%Q -> status g' = "completed")) /\
    (status g' = "cancelled" -> status g = "cancelled") /\
    (status g = "completed" -> status g' = "completed").
Proof.
  intros gid uid amount ty db g d Hg Ht Hok in_memory percentage total g'.
  destruct (update_goal_progress_ok _ _ _ _ _ _ _ Hg Hok) as (_ & Hd & Hdb).
  assert (Hg' : g' = Repo.rounded_progress ty in_memory)
    by (subst g'; by rewrite Hd).
  destruct (progressed_keeps (utcnow db) (fl amount) ty g)
    as (_ & Htg & _ & Hst & _).
  destruct (update_progress_keeps (utcnow db) (fl amount) ty g) as (_ & Htm & _).
  pose proof (update_progress_status (utcnow db) (fl amount) ty g) as Hs.
  cbv zeta in Hs. fold in_memory in Hs, Hst, Htm. fold percentage in Hs.
  unfold progressed in Htg, Hst. fold in_memory in Htg, Hst.
  rewrite <- Hg' in Htg, Hst. rewrite <- Hst in Hs.
  split; [done|]. split.
  { rewrite Hdb, Hg'. unfold stored, set_goals. simpl. by rewrite lookup_insert_eq. }
  split; [done|].
  assert (Hformula : Lawful N ->
    (percentage == Qmin 100 (fl (fl (total / fl (target_amount g)) * 100)))%Q).
  { intros L. subst percentage total. rewrite <- Htm.
    apply calculate_progress_formula. by rewrite Htm. }
  destruct (Qle_bool 100 percentage) eqn:E.
  - apply Qle_bool_iff in E. split; [done|]. split.
    { intros Hlt. exfalso. exact (Qlt_not_le _ _ Hlt E). }
    split; [by split; [apply Hformula|]|]. split; [by rewrite Hs|done].
  - apply Qle_bool_false in E. split.
    { intros Hle. exfalso. exact (Qlt_not_le _ _ E Hle). }
    split; [done|]. split; [|split; by rewrite Hs].
    intros L. split; [by apply Hformula|]. intros Hreach. exfalso.
    apply (Qlt_not_le _ _ E). rewrite (Hformula L).
    apply Q.min_glb; [apply Qle_refl|].
    apply percent_reached; [by apply fl_pos|done].
Qed.

Lemma completion_on_progress_witness :
  exists d1 d2,
    outcome (Facade.update_goal_progress 1 1 60 "manual" savings_db) = Ok d1 /\
    status (d_goal d1) = "active" /\
    outcome (Facade.update_goal_progress 1 1 40 "manual"
               (final_db (Facade.update_goal_progress 1 1 60 "manual" savings_db)))
      = Ok d2 /\
    status (d_goal d2) = "completed" /\ (progress_percentage d2 == 100)%Q.
Proof.
  let r1 := eval vm_compute in
    (outcome (Facade.update_goal_progress 1 1 60 "manual" savings_db)) in
  let r2 := eval vm_compute in
    (outcome (Facade.update_goal_progress 1 1 40 "manual"
                (final_db (Facade.update_goal_progress 1 1 60 "manual" savings_db)))) in
  match r1 with
  | Ok ?d1 =>
      match r2 with
      | Ok ?d2 =>
          assert (H2 : outcome (Facade.update_goal_progress 1 1 40 "manual"
                         (final_db (Facade.update_goal_progress 1 1 60 "manual"
                                      savings_db))) = Ok d2)
            by (vm_compute; reflexivity);
          exists d1, d2;
          split; [vm_compute; reflexivity|]; split; [vm_compute; reflexivity|];
          split; [exact H2|]; split; [|vm_compute; reflexivity];
          refine (proj1 (proj2 (proj2 (proj2
            (completion_on_progress (N := Plain.numerics) 1 1 40%Q "manual"
               (final_db (Facade.update_goal_progress 1 1 60 "manual" savings_db))
               (progressed 1000 60 "manual" (sample_goal 1 None "active"))
               d2 _ _ H2)))) _);
          vm_compute; first [reflexivity | discriminate]
      end
  end.
Defined.

(** The claim as the spec has it fails: a goal with target 0.34 and 0.09
    contributed receives 0.25; the float sum is 0.33999999999999997 and
    the percentage 99.99999999999999, so the goal stays [active], while
    the stored [current_amount] is 0.34, the target. *)
Lemma total_reached_not_completed :
  exists d,
    outcome (Facade.update_goal_progress 1 1 (25 # 100) "manual" coins_db) = Ok d /\
    goals (final_db (Facade.update_goal_progress 1 1 (25 # 100) "manual" coins_db))
      !! 1 = Some (d_goal d) /\
    (target_amount (d_goal d) <=
     or_zero (current_amount (d_goal d)) + or_zero (linked_amount (d_goal d)))%Q /\
    status (d_goal d) = "active" /\
    (progress_percentage d == 100)%Q.
Proof.
  let r := eval vm_compute in
    (outcome (Facade.update_goal_progress 1 1 (25 # 100) "manual" coins_db)) in
  match r with
  | Ok ?d =>
      exists d; split; [vm_compute; reflexivity|];
      split; [vm_compute; reflexivity|];
      split; [vm_compute; discriminate|];
      split; vm_compute; reflexivity
  end.
Qed.

(** A goal with target 0.80 and 0.70 contributed receives 0.1: the float
    sum is 0.7999999999999999 and the goal stays [active]. *)
Example seventy_and_ten_cents :
  match goals (final_db (Facade.update_goal_progress 1 1 (1 # 10) "manual"
                           (stored 1 (saving (80 # 100) (70 # 100)) coins_db))) !! 1 with
  | Some g' => current_amount g' = Some (4 # 5)%Q /\ target_amount g' = (80 # 100)%Q /\
               status g' = "active"
  | None => False
  end.
Proof. vm_compute. split; [reflexivity|]. split; reflexivity. Qed.





